(** * agent_fun.py: the action-decision protocol of the tool-calling agent

    A shallow embedding of [llm_json] (the parser with its repair chain) and
    of the conversation loop of [main], together with the properties stated
    for them: totality of the parser, the fallback order, the treatment of
    unknown tools, the iteration budget, and the append-only history. *)

From Stdlib Require Import List NArith ZArith Ascii String QArith Bool Lia.
Import ListNotations.

Set Warnings "-register-all".
Open Scope string_scope.
Open Scope Z_scope.
Open Scope list_scope.

(** ** Python strings

    A Python [str] is a sequence of Unicode code points.  String literals of
    the source are written as Rocq strings and read through [py]. *)

Definition char := N.
Abbreviation str := (list char).

Definition py (s : string) : str := map N_of_ascii (list_ascii_of_string s).
Coercion py : string >-> list.

Definition chr (a : ascii) : char := N_of_ascii a.
Arguments chr a%_char.

(** The double quote. *)
Definition c_quote : char := 34%N.

(** A literal in which every apostrophe stands for a double quote. *)
Definition quoted (s : string) : str :=
  map (fun c => if (c =? chr "'")%N then c_quote else c) (py s).

Fixpoint str_eqb (a b : str) : bool :=
  match a, b with
  | [], [] => true
  | x :: a', y :: b' => N.eqb x y && str_eqb a' b'
  | _, _ => false
  end.

(** [s.startswith(p)] *)
Fixpoint startswith (s p : str) : bool :=
  match p, s with
  | [], _ => true
  | y :: p', x :: s' => N.eqb x y && startswith s' p'
  | _ :: _, [] => false
  end.

(** [p in s] for strings: [p] occurs as a contiguous substring of [s]. *)
Fixpoint contains (p s : str) : bool :=
  startswith s p ||
  match s with
  | [] => false
  | _ :: s' => contains p s'
  end.

(** [s.count(c)] for a one-character needle. *)
Fixpoint count (s : str) (c : char) : Z :=
  match s with
  | [] => 0
  | x :: s' => (if N.eqb x c then 1 else 0) + count s' c
  end.

(** [s.find(c)] for a one-character needle: the first index, or -1. *)
Fixpoint find_from (s : str) (c : char) (i : nat) : Z :=
  match s with
  | [] => -1
  | x :: s' => if N.eqb x c then Z.of_nat i else find_from s' c (S i)
  end.

Definition find (s : str) (c : char) : Z := find_from s c 0.

(** [s[a:b]] for indices within range. *)
Definition slice (s : str) (a b : nat) : str := firstn (b - a) (skipn a s).

(** [s[i]] as an optional character ([None] where Python raises). *)
Definition char_at (s : str) (i : nat) : option char := nth_error s i.

(** The characters [str.isspace] accepts, which are the ones [str.strip]
    removes when called without argument. *)
Definition isspace (c : char) : bool :=
  ((9 <=? c) && (c <=? 13) || (28 <=? c) && (c <=? 32) ||
   (c =? 133) || (c =? 160) || (c =? 5760) ||
   (8192 <=? c) && (c <=? 8202) || (c =? 8232) || (c =? 8233) ||
   (c =? 8239) || (c =? 8287) || (c =? 12288))%N.

Fixpoint lstrip (s : str) : str :=
  match s with
  | [] => []
  | c :: s' => if isspace c then lstrip s' else s
  end.

Definition rstrip (s : str) : str := rev (lstrip (rev s)).

Definition strip (s : str) : str := rstrip (lstrip s).

(** [s.lower()] on the ASCII letters (enough to compare with ASCII words). *)
Definition lower_char (c : char) : char :=
  if ((65 <=? c) && (c <=? 90))%N then (c + 32)%N else c.

Definition lower (s : str) : str := map lower_char s.

(** Decimal text of an integer, as [str(n)] gives it. *)
Fixpoint digits_of (fuel : nat) (n : N) (acc : str) : str :=
  match fuel with
  | O => acc
  | S f =>
      let d := (48 + n mod 10)%N in
      if (n <? 10)%N then d :: acc else digits_of f (n / 10)%N (d :: acc)
  end.

Definition str_of_Z (z : Z) : str :=
  let n := Z.abs_N z in
  let ds := digits_of (S (N.to_nat (N.log2 n))) n [] in
  if z <? 0 then chr "-" :: ds else ds.

(** ** JSON values and Python dicts

    A dict keeps its keys in insertion order; assigning to a key that is
    present replaces the value in place. *)

Definition dict (V : Type) := list (str * V).

Fixpoint dict_get {V} (d : dict V) (k : str) : option V :=
  match d with
  | [] => None
  | (k', v) :: d' => if str_eqb k' k then Some v else dict_get d' k
  end.

Fixpoint dict_set {V} (d : dict V) (k : str) (v : V) : dict V :=
  match d with
  | [] => [(k, v)]
  | (k', v') :: d' =>
      if str_eqb k' k then (k', v) :: d' else (k', v') :: dict_set d' k v
  end.

Definition dict_keys {V} (d : dict V) : list str := map fst d.

Definition dict_mem {V} (d : dict V) (k : str) : bool :=
  match dict_get d k with Some _ => true | None => false end.

(** [dict(pairs)]: later pairs win. *)
Definition dict_of_pairs {V} (pairs : list (str * V)) : dict V :=
  fold_left (fun d kv => dict_set d (fst kv) (snd kv)) pairs [].

(** What [json.loads] can return.  A float is kept as its decimal text. *)
Inductive JSON : Type :=
| JNull
| JBool (b : bool)
| JInt (z : Z)
| JFloat (text : str)
| JString (s : str)
| JArray (items : list JSON)
| JObject (members : dict JSON).

(** ** A reference model of [json.loads]

    The decoder of Python's standard library, as its scanner reads a text:
    JSON whitespace, objects, arrays, strings with escapes (strict mode:
    no raw control character), numbers, [true], [false], [null] and the
    constants [NaN], [Infinity], [-Infinity].  [None] stands for a raised
    exception.  The limit of the interpreter on the depth of nesting,
    which depends on the stack in use at the call, is not part of this
    model. *)

Module Decoder.

Definition is_ws (c : char) : bool :=
  ((c =? 32) || (c =? 9) || (c =? 10) || (c =? 13))%N.

Fixpoint skip_ws (s : str) : str :=
  match s with
  | [] => []
  | c :: s' => if is_ws c then skip_ws s' else s
  end.

Definition is_digit (c : char) : bool := ((48 <=? c) && (c <=? 57))%N.

Definition hex_digit (c : char) : option N :=
  if is_digit c then Some (c - 48)%N
  else if ((97 <=? c) && (c <=? 102))%N then Some (c - 87)%N
  else if ((65 <=? c) && (c <=? 70))%N then Some (c - 55)%N
  else None.

Definition hex4 (a b c d : char) : option N :=
  match hex_digit a, hex_digit b, hex_digit c, hex_digit d with
  | Some x, Some y, Some z, Some w => Some (((x * 16 + y) * 16 + z) * 16 + w)%N
  | _, _, _, _ => None
  end.

Definition is_high_surrogate (u : N) : bool := ((55296 <=? u) && (u <=? 56319))%N.
Definition is_low_surrogate (u : N) : bool := ((56320 <=? u) && (u <=? 57343))%N.

Definition join_surrogates (hi lo : N) : N :=
  (65536 + ((hi - 55296) * 1024 + (lo - 56320)))%N.

(** The one-letter escapes after a backslash. *)
Definition simple_escape (e : char) : option char :=
  if (e =? c_quote)%N then Some (c_quote)
  else if (e =? chr "\")%N then Some (chr "\")
  else if (e =? chr "/")%N then Some (chr "/")
  else if (e =? chr "b")%N then Some 8%N
  else if (e =? chr "f")%N then Some 12%N
  else if (e =? chr "n")%N then Some 10%N
  else if (e =? chr "r")%N then Some 13%N
  else if (e =? chr "t")%N then Some 9%N
  else None.

(** [scanstring]: the text after an opening quote, up to the closing one.
    Returns the decoded string and what follows the closing quote. *)
Fixpoint scanstring (s : str) (acc : str) : option (str * str) :=
  match s with
  | [] => None
  | c :: rest =>
      if (c =? c_quote)%N then Some (rev acc, rest)
      else if (c =? chr "\")%N then
        match rest with
        | [] => None
        | e :: rest1 =>
            if (e =? chr "u")%N then
              match rest1 with
              | h1 :: h2 :: h3 :: h4 :: rest2 =>
                  match hex4 h1 h2 h3 h4 with
                  | None => None
                  | Some uni =>
                      if is_high_surrogate uni then
                        match rest2 with
                        | b :: u :: g1 :: g2 :: g3 :: g4 :: rest3 =>
                            if ((b =? chr "\") && (u =? chr "u"))%N then
                              match hex4 g1 g2 g3 g4 with
                              | None => None
                              | Some uni2 =>
                                  if is_low_surrogate uni2
                                  then scanstring rest3 (join_surrogates uni uni2 :: acc)
                                  else scanstring rest2 (uni :: acc)
                              end
                            else scanstring rest2 (uni :: acc)
                        | _ => scanstring rest2 (uni :: acc)
                        end
                      else scanstring rest2 (uni :: acc)
                  end
              | _ => None
              end
            else
              match simple_escape e with
              | Some d => scanstring rest1 (d :: acc)
              | None => None
              end
        end
      else if (c <? 32)%N then None
      else scanstring rest (c :: acc)
  end.

Fixpoint span_digits (s : str) : str * str :=
  match s with
  | [] => ([], [])
  | c :: s' =>
      if is_digit c then let (ds, r) := span_digits s' in (c :: ds, r)
      else ([], s)
  end.

Definition Z_of_digits (ds : str) : Z :=
  fold_left (fun acc c => acc * 10 + Z.of_N (c - 48)%N) ds 0.

(** The integer part of a number: an optional minus sign, then a single
    zero or a nonzero digit followed by digits. *)
Definition match_integer (s : str) : option (bool * str * str) :=
  let '(neg, s1) :=
    match s with
    | c :: r => if (c =? chr "-")%N then (true, r) else (false, s)
    | [] => (false, s)
    end in
  match s1 with
  | d :: r =>
      if (d =? chr "0")%N then Some (neg, [d], r)
      else if is_digit d then
        let (ds, r') := span_digits r in Some (neg, d :: ds, r')
      else None
  | [] => None
  end.

(** The optional fraction: a dot and at least one digit. *)
Definition match_frac (s : str) : str * str :=
  match s with
  | c :: r =>
      if (c =? chr ".")%N then
        match span_digits r with
        | ([], _) => ([], s)
        | (ds, r') => (c :: ds, r')
        end
      else ([], s)
  | [] => ([], s)
  end.

(** The optional exponent: e or E, an optional sign, at least one digit. *)
Definition match_exp (s : str) : str * str :=
  match s with
  | e :: r =>
      if ((e =? chr "e") || (e =? chr "E"))%N then
        let '(sign, r1) :=
          match r with
          | c :: r' =>
              if ((c =? chr "-") || (c =? chr "+"))%N then ([c], r') else ([], r)
          | [] => ([], r)
          end in
        match span_digits r1 with
        | ([], _) => ([], s)
        | (ds, r2) => (e :: sign ++ ds, r2)
        end
      else ([], s)
  | [] => ([], s)
  end.

(** A number.  An integer of more than 4300 digits is refused by [int]
    (the default limit of the interpreter), which fails the decoding. *)
Definition match_number (s : str) : option (JSON * str) :=
  match match_integer s with
  | None => None
  | Some (neg, ds, r) =>
      let (frac, r1) := match_frac r in
      let (exp, r2) := match_exp r1 in
      match frac, exp with
      | [], [] =>
          if (4300 <? List.length ds)%nat then None
          else Some (JInt (if neg then - Z_of_digits ds else Z_of_digits ds), r2)
      | _, _ =>
          Some (JFloat ((if neg then [chr "-"] else []) ++ ds ++ frac ++ exp), r2)
      end
  end.

(** A literal word at the head of the text. *)
Definition literal (w : str) (v : JSON) (s : str) : option (JSON * str) :=
  if startswith s w then Some (v, skipn (List.length w) s) else None.

(** [scan_once] with the object and array loops.  Every call consumes at
    least one character, so [fuel] above the length of the text is never
    used up. *)
Fixpoint scan_once (fuel : nat) (s : str) {struct fuel} : option (JSON * str) :=
  match fuel with
  | O => None
  | S f =>
      match s with
      | [] => None
      | c :: rest =>
          if (c =? c_quote)%N then
            match scanstring rest [] with
            | Some (k, r) => Some (JString k, r)
            | None => None
            end
          else if (c =? chr "{")%N then
            match skip_ws rest with
            | c1 :: r1 =>
                if (c1 =? chr "}")%N then Some (JObject [], r1)
                else if (c1 =? c_quote)%N then parse_members f r1 []
                else None
            | [] => None
            end
          else if (c =? chr "[")%N then
            match skip_ws rest with
            | c1 :: r1 =>
                if (c1 =? chr "]")%N then Some (JArray [], r1)
                else parse_elements f (c1 :: r1) []
            | [] => None
            end
          else if (c =? chr "n")%N then literal "null" JNull s
          else if (c =? chr "t")%N then literal "true" (JBool true) s
          else if (c =? chr "f")%N then literal "false" (JBool false) s
          else
            match match_number s with
            | Some r => Some r
            | None =>
                if (c =? chr "N")%N then literal "NaN" (JFloat "nan") s
                else if (c =? chr "I")%N then literal "Infinity" (JFloat "inf") s
                else if (c =? chr "-")%N then literal "-Infinity" (JFloat "-inf") s
                else None
            end
      end
  end

(** The text just after the opening quote of a key; [pairs] holds the
    members read so far, last first. *)
with parse_members (fuel : nat) (s : str) (pairs : list (str * JSON)) {struct fuel}
  : option (JSON * str) :=
  match fuel with
  | O => None
  | S f =>
      match scanstring s [] with
      | None => None
      | Some (key, s1) =>
          match skip_ws s1 with
          | c :: s2 =>
              if (c =? chr ":")%N then
                match scan_once f (skip_ws s2) with
                | None => None
                | Some (v, s3) =>
                    match skip_ws s3 with
                    | c' :: s4 =>
                        if (c' =? chr "}")%N then
                          Some (JObject (dict_of_pairs (rev ((key, v) :: pairs))), s4)
                        else if (c' =? chr ",")%N then
                          match skip_ws s4 with
                          | q :: s5 =>
                              if (q =? c_quote)%N
                              then parse_members f s5 ((key, v) :: pairs)
                              else None
                          | [] => None
                          end
                        else None
                    | [] => None
                    end
                end
              else None
          | [] => None
          end
      end
  end

(** The text at the start of an array element; [items] holds the elements
    read so far, last first. *)
with parse_elements (fuel : nat) (s : str) (items : list JSON) {struct fuel}
  : option (JSON * str) :=
  match fuel with
  | O => None
  | S f =>
      match scan_once f s with
      | None => None
      | Some (v, s1) =>
          match skip_ws s1 with
          | c :: s2 =>
              if (c =? chr "]")%N then Some (JArray (rev (v :: items)), s2)
              else if (c =? chr ",")%N then parse_elements f (skip_ws s2) (v :: items)
              else None
          | [] => None
          end
      end
  end.

(** [json.loads(s)]: one value, surrounded by whitespace only. *)
Definition loads (s : str) : option JSON :=
  if startswith s [65279%N] then None
  else
    match scan_once (S (List.length s)) (skip_ws s) with
    | Some (v, rest) =>
        match skip_ws rest with
        | [] => Some v
        | _ :: _ => None
        end
    | None => None
    end.

End Decoder.

(** ** Exceptions, the collaborators and the state of a run *)

(** The exceptions the program can meet; all are subclasses of
    [Exception]. *)
Inductive Exn : Type :=
| ExternalError (msg : str)            (* raised by a collaborator; [msg] is [str(e)],
                                          a text the terminal can write *)
| AttributeError (type_name attr : str)
| UnhashableType (type_name : str)     (* the [TypeError] of hashing a list or a dict *)
| EOFError
| UnicodeEncodeError (text : str).     (* [text] could not be written to the terminal *)

(** The terminal is a UTF-8 stream with the strict error handler, as
    Python opens it by default: every code point can be written but a
    surrogate. *)
Definition is_surrogate (c : char) : bool := ((55296 <=? c) && (c <=? 57343))%N.

Definition encodable (s : str) : bool :=
  forallb (fun c => negb (is_surrogate c)) s.

Fixpoint leading_surrogates (s : str) : nat :=
  match s with
  | c :: rest => if is_surrogate c then S (leading_surrogates rest) else 0
  | [] => 0
  end.

(** The first run of surrogates of a text: where it starts, its first
    character, its length. *)
Fixpoint surrogate_run (s : str) (i : nat) : option (nat * char * nat) :=
  match s with
  | [] => None
  | c :: rest =>
      if is_surrogate c then Some (i, c, leading_surrogates s)
      else surrogate_run rest (S i)
  end.

(** A hexadecimal digit, in lower case. *)
Definition hex_char (n : N) : char :=
  if (n <? 10)%N then (48 + n)%N else (87 + n)%N.

(** The four hexadecimal digits of a code point below 65536. *)
Definition hex4_lower (c : char) : str :=
  [hex_char (c / 4096); hex_char ((c / 256) mod 16);
   hex_char ((c / 16) mod 16); hex_char (c mod 16)].

Definition exn_str (e : Exn) : str :=
  match e with
  | ExternalError msg => msg
  | AttributeError ty attr => "'" ++ ty ++ "' object has no attribute '" ++ attr ++ "'"
  | UnhashableType ty => "unhashable type: '" ++ ty ++ "'"
  | EOFError => "EOF when reading a line"
  | UnicodeEncodeError text =>
      match surrogate_run text 0 with
      | Some (i, c, 1%nat) =>
          "'utf-8' codec can't encode character '\u" ++ hex4_lower c ++
          "' in position " ++ str_of_Z (Z.of_nat i) ++ ": surrogates not allowed"
      | Some (i, _, n) =>
          "'utf-8' codec can't encode characters in position " ++
          str_of_Z (Z.of_nat i) ++ "-" ++ str_of_Z (Z.of_nat (i + n - 1)) ++
          ": surrogates not allowed"
      | None => "'utf-8' codec can't encode characters"
      end
  end.

Inductive Res (A : Type) : Type :=
| Ret (a : A)
| Raise (e : Exn).
Arguments Ret {A} a.
Arguments Raise {A} e.

(** A message of the conversation: [{"role": ..., "content": ...}].  The
    content is whatever object the program stores there. *)
Record Message : Type := { role : str; content : JSON }.

(** The arguments of one [chat(...)] call. *)
Record ChatRequest : Type :=
  { model : str; messages : list Message; temperature : Q }.

(** A tool descriptor, as [session.list_tools()] lists it. *)
Record Tool : Type :=
  { name : str; description : option str; inputSchema : JSON }.

(** The result of [session.call_tool]: content blocks, of which only a
    text block has a [text] attribute. *)
Inductive ContentBlock : Type :=
| TextContent (text : str)
| OtherContent (type_name : str).

Record CallToolResult : Type :=
  { result_content : list ContentBlock; model_dump_json : str }.

(** What the program writes to the terminal. *)
Inductive Output : Type :=
| Print (line : str)                 (* [print(line)] *)
| PrintAgent (answer : JSON)         (* [print("\nAgent:", answer)] *)
| PrintAgentCut                      (* the same [print], cut after [Agent: ] *)
| PrintTools (names : list str)      (* [print("Connected tools:", names)] *)
| Prompt (text : str)                (* the prompt of [input(text)] *)
| Closed.                            (* [exit_stack.aclose()] *)

(** [json.loads]: [None] when it raises. *)
Class JsonDecoder : Type :=
  { json_loads : str -> option JSON }.

(** The model backend.  [chat req] stands for
    [chat(...)["message"]["content"]] of lines 41-42 and 76-80: the call
    and the reading of the content of the reply as a string.  It raises
    when either does (the call fails, or the reply holds no string to
    strip); [W] is the state of the outside world. *)
Class Completer (W : Type) : Type :=
  { chat : ChatRequest -> W -> Res str * W }.

(** The tool session. *)
Class ToolProvider (W : Type) : Type :=
  { list_tools : W -> Res (list Tool) * W;
    call_tool : str -> JSON -> W -> Res CallToolResult * W }.

(** The state of a run: the outside world, the [history] list of [main],
    the terminal, and a log of the calls made to the collaborators. *)
Record State (W : Type) : Type :=
  { world : W;
    history : list Message;
    stdout : list Output;
    chat_calls : list ChatRequest;
    tool_calls : list (str * JSON) }.
Arguments world {W} _.
Arguments history {W} _.
Arguments stdout {W} _.
Arguments chat_calls {W} _.
Arguments tool_calls {W} _.
Arguments Build_State {W} _ _ _ _ _.

(** Computations: state passing, with exceptions. *)
Definition M (W A : Type) : Type := State W -> Res A * State W.

Definition ret {W A} (a : A) : M W A := fun st => (Ret a, st).

Definition raise {W A} (e : Exn) : M W A := fun st => (Raise e, st).

Definition bind {W A B} (c : M W A) (k : A -> M W B) : M W B :=
  fun st =>
    match c st with
    | (Ret a, st') => k a st'
    | (Raise e, st') => (Raise e, st')
    end.

Notation "x <- c ;; k" := (bind c (fun x => k))
  (at level 61, c at next level, right associativity).
Notation "c ;; k" := (bind c (fun _ => k))
  (at level 61, right associativity).

(** [try: c  except Exception as e: ...] *)
Definition try_except {W A} (c : M W A) : M W (A + Exn) :=
  fun st =>
    match c st with
    | (Ret a, st') => (Ret (inl a), st')
    | (Raise e, st') => (Ret (inr e), st')
    end.

(** [try: c  finally: f] *)
Definition finally {W A} (c : M W A) (f : M W unit) : M W A :=
  fun st =>
    match c st with
    | (r, st') =>
        match f st' with
        | (Ret _, st'') => (r, st'')
        | (Raise e, st'') => (Raise e, st'')
        end
    end.

(** Something reaches the terminal. *)
Definition emit {W} (o : Output) : M W unit :=
  fun st =>
    (Ret tt, Build_State (world st) (history st) (stdout st ++ [o])
                         (chat_calls st) (tool_calls st)).

(** [print(line)] of a text built from the reply of the model: the line
    is encoded as a whole, so a surrogate in it raises with nothing
    written. *)
Definition print_line {W} (line : str) : M W unit :=
  if encodable line then emit (Print line)
  else raise (UnicodeEncodeError line).

(** [print("\nAgent:", answer)].  The arguments are written one after the
    other: a string answer with a surrogate raises once [Agent:] and the
    separator are out.  Any other object is written through [repr], which
    escapes what the terminal cannot encode. *)
Definition print_agent {W} (answer : JSON) : M W unit :=
  match answer with
  | JString s =>
      if encodable s then emit (PrintAgent answer)
      else emit PrintAgentCut ;; raise (UnicodeEncodeError s)
  | _ => emit (PrintAgent answer)
  end.

(** The objects [print] can write: all but a string with a surrogate. *)
Definition printable (v : JSON) : bool :=
  match v with
  | JString s => encodable s
  | _ => true
  end.

(** [history.append(m)] *)
Definition append {W} (m : Message) : M W unit :=
  fun st =>
    (Ret tt, Build_State (world st) (history st ++ [m]) (stdout st)
                         (chat_calls st) (tool_calls st)).

(** [history = h] *)
Definition set_history {W} (h : list Message) : M W unit :=
  fun st =>
    (Ret tt, Build_State (world st) h (stdout st) (chat_calls st) (tool_calls st)).

Definition get_history {W} : M W (list Message) :=
  fun st => (Ret (history st), st).

Definition do_chat {W} `{Completer W} (req : ChatRequest) : M W str :=
  fun st =>
    let (r, w) := chat req (world st) in
    (r, Build_State w (history st) (stdout st) (chat_calls st ++ [req])
                    (tool_calls st)).

Definition do_call_tool {W} `{ToolProvider W} (tname : str) (args : JSON)
  : M W CallToolResult :=
  fun st =>
    let (r, w) := call_tool tname args (world st) in
    (r, Build_State w (history st) (stdout st) (chat_calls st)
                    (tool_calls st ++ [(tname, args)])).

Definition do_list_tools {W} `{ToolProvider W} : M W (list Tool) :=
  fun st =>
    let (r, w) := list_tools (world st) in
    (r, Build_State w (history st) (stdout st) (chat_calls st) (tool_calls st)).

Definition lift_res {W A} (r : Res A) : M W A := fun st => (r, st).

(** ** Python object operations used by the loop *)

Definition type_name (v : JSON) : str :=
  match v with
  | JNull => "NoneType"
  | JBool _ => "bool"
  | JInt _ => "int"
  | JFloat _ => "float"
  | JString _ => "str"
  | JArray _ => "list"
  | JObject _ => "dict"
  end.

(** [obj.get(key, default)]: only a dict has the method. *)
Definition py_get {W} (obj : JSON) (key : str) (default : JSON) : M W JSON :=
  match obj with
  | JObject d =>
      ret (match dict_get d key with Some v => v | None => default end)
  | _ => raise (AttributeError (type_name obj) "get")
  end.

(** [v == s] for a string [s]. *)
Definition py_eq_str (v : JSON) (s : str) : bool :=
  match v with
  | JString x => str_eqb x s
  | _ => false
  end.

(** The values that can be looked up in a dict. *)
Inductive Key : Type :=
| KNone
| KBool (b : bool)
| KInt (z : Z)
| KFloat (text : str)
| KStr (s : str).

(** Hashing, the first step of [v in d]: a list or a dict raises. *)
Definition hashed {W} (v : JSON) : M W Key :=
  match v with
  | JNull => ret KNone
  | JBool b => ret (KBool b)
  | JInt z => ret (KInt z)
  | JFloat t => ret (KFloat t)
  | JString s => ret (KStr s)
  | JArray _ | JObject _ => raise (UnhashableType (type_name v))
  end.

(** [k in d] for a dict with string keys: only an equal string is found. *)
Definition key_in {V} (k : Key) (d : dict V) : bool :=
  match k with
  | KStr s => dict_mem d s
  | _ => false
  end.

(** [repr] of a float (given by the text of its literal), a list or a
    dict, which is what [str] gives for them. *)
Class PyRepr : Type :=
  { py_repr : JSON -> str }.

(** [str(k)], which is what an f-string inserts. *)
Definition key_str {R : PyRepr} (k : Key) : str :=
  match k with
  | KNone => "None"
  | KBool true => "True"
  | KBool false => "False"
  | KInt z => str_of_Z z
  | KFloat t => py_repr (JFloat t)
  | KStr s => s
  end.

(** [{"action": "final", "answer": txt}] *)
Definition final_answer (txt : str) : JSON :=
  JObject [(py "action", JString "final"); (py "answer", JString txt)].

(** [{"role": r, "content": c}] *)
Definition message (r : str) (c : JSON) : Message := {| role := r; content := c |}.

(** ** The parser: [llm_json] *)

Section Agent.

Context {D : JsonDecoder} {W : Type} {C : Completer W} {T : ToolProvider W}
        {R : PyRepr}.

(** The scan of lines 58-65: [idxs] are the indices left in
    [range(start, len(txt))].  The result is [first_json] when the loop
    reaches its [return], [None] when the loop runs out. *)
Fixpoint scan_braces (txt : str) (start : nat) (idxs : list nat) (brace_count : Z)
  : option str :=
  match idxs with
  | [] => None
  | i :: rest =>
      match char_at txt i with
      | None => None
      | Some c =>
          if (c =? chr "{")%N then scan_braces txt start rest (brace_count + 1)
          else if (c =? chr "}")%N then
            let brace_count := brace_count - 1 in
            if brace_count =? 0 then Some (slice txt start (i + 1))
            else scan_braces txt start rest brace_count
          else scan_braces txt start rest brace_count
      end
  end.

(** Lines 53-67: the value returned from inside the block, or [None] when
    control leaves the block (nothing balanced, or [json.loads] raised). *)
Definition first_object (txt : str) : option JSON :=
  if 1 <? count txt (chr "{") then
    let start := Z.to_nat (find txt (chr "{")) in
    match scan_braces txt start (seq start (List.length txt - start)) 0 with
    | Some first_json => json_loads first_json
    | None => None
    end
  else None.

Definition fix_prompt : str :=
  "Convert the following text into ONLY this exact JSON format: " ++
  quoted "{'action':'final','answer':'<text>'} " ++
  "Return ONLY the JSON, nothing else.".

(** The request of line 41. *)
Definition primary_request (messages : list Message) : ChatRequest :=
  {| model := "mistral:7b"; messages := messages; temperature := 0.2 |}.

(** The request of lines 76-79. *)
Definition repair_request (txt : str) : ChatRequest :=
  {| model := "mistral:7b";
     messages := [message "system" (JString fix_prompt);
                  message "user" (JString txt)];
     temperature := 0 |}.

Definition llm_json (messages : list Message) : M W JSON :=
  resp <- do_chat (primary_request messages) ;;
  let txt := strip resp in
  match json_loads txt with
  | Some v => ret v
  | None =>
      if negb (startswith txt "{") && negb (contains "action" txt) then
        ret (final_answer txt)
      else
        match first_object txt with
        | Some v => ret v
        | None =>
            fix_ <- try_except (do_chat (repair_request txt)) ;;
            match fix_ with
            | inl fixed =>
                match json_loads (strip fixed) with
                | Some v => ret v
                | None => ret (final_answer txt)
                end
            | inr _ => ret (final_answer txt)
            end
        end
  end.

(** ** The loop of [main] *)

(** [{t.name: t for t in tools}] *)
Definition tool_index_of (tools : list Tool) : dict Tool :=
  dict_of_pairs (map (fun t => (name t, t)) tools).

(** Lines 97-99. *)
Definition connect : M W (dict Tool) :=
  tools <- do_list_tools ;;
  let tool_index := tool_index_of tools in
  emit (PrintTools (dict_keys tool_index)) ;;
  ret tool_index.

(** Line 151. *)
Definition payload_of (result : CallToolResult) : Res str :=
  match result_content result with
  | [] => Ret (model_dump_json result)
  | TextContent text :: _ => Ret text
  | OtherContent ty :: _ => Raise (AttributeError ty "text")
  end.

(** How an iteration of a [for] loop ends. *)
Inductive Flow : Type := Next | Break.

Fixpoint for_in {A} (xs : list A) (body : A -> M W Flow) : M W unit :=
  match xs with
  | [] => ret tt
  | x :: rest =>
      f <- body x ;;
      match f with
      | Break => ret tt
      | Next => for_in rest body
      end
  end.

(** Lines 129-156: one iteration of the [for] loop. *)
Definition iteration_body (tool_index : dict Tool) (iteration : nat) : M W Flow :=
  history_ <- get_history ;;
  decision_ <- try_except (llm_json history_) ;;
  match decision_ with
  | inr e =>
      emit (Print ("[ERROR] Failed to get valid JSON from LLM: " ++ exn_str e)) ;;
      ret Break
  | inl decision =>
      action <- py_get decision "action" JNull ;;
      if py_eq_str action "final" then
        answer <- py_get decision "answer" (JString []) ;;   (* default: empty string *)
        print_agent answer ;;
        append (message "assistant" answer) ;;
        ret Break
      else
        tname_ <- py_get decision "action" JNull ;;
        args <- py_get decision "args" (JObject []) ;;
        tname <- hashed tname_ ;;
        if negb (key_in tname tool_index) then
          print_line ("[ERROR] Unknown tool: " ++ key_str tname) ;;
          append (message "assistant"
                    (JString ("(unknown tool " ++ key_str tname ++ ")"))) ;;
          ret Next
        else
          r <- try_except
                 (result <- do_call_tool (key_str tname) args ;;
                  payload <- lift_res (payload_of result) ;;
                  append (message "assistant"
                            (JString ("[tool:" ++ key_str tname ++ "] " ++ payload)))) ;;
          match r with
          | inl _ => ret Next
          | inr e =>
              let error_msg := "Tool call failed: " ++ exn_str e in
              emit (Print ("[ERROR] " ++ error_msg)) ;;
              append (message "assistant" (JString ("[error] " ++ error_msg))) ;;
              ret Next
          end
  end.

(** Lines 126-156: one user turn. *)
Definition turn (tool_index : dict Tool) (user : str) : M W unit :=
  append (message "user" (JString user)) ;;
  for_in (seq 0 6) (iteration_body tool_index).

Definition is_quit (user : str) : bool :=
  match user with
  | [] => true
  | _ => str_eqb (lower user) "exit" || str_eqb (lower user) "quit"
  end.

(** Lines 122-156: the [while True] loop, over the lines still to be read
    from the terminal; [input] raises [EOFError] when there is none. *)
Fixpoint repl (tool_index : dict Tool) (stdin : list str) : M W unit :=
  emit (Prompt (10%N :: "You: ")) ;;
  match stdin with
  | [] => raise EOFError
  | line :: rest =>
      let user := strip line in
      if is_quit user then ret tt
      else turn tool_index user ;; repl tool_index rest
  end.

(** Lines 120-158, from the system prompt built before them. *)
Definition session (tool_index : dict Tool) (system_with_tools : str)
  (stdin : list str) : M W unit :=
  set_history [message "system" (JString system_with_tools)] ;;
  finally (repl tool_index stdin) (emit Closed).

End Agent.

(** ** Stand-ins for the collaborators, to run the program on examples *)

(** A [repr] for the examples, none of which prints a float, a list or a
    dict. *)
Definition no_repr : PyRepr := {| py_repr := fun _ => py "..." |}.

(** The reference decoder as the [json.loads] of the program. *)
Definition python_json : JsonDecoder := {| json_loads := Decoder.loads |}.

(** A backend that replays a script of replies, one per call, and raises
    once the script is over. *)
Definition scripted : Completer (list (Res str)) :=
  {| chat := fun _ w =>
       match w with
       | [] => (Raise (ExternalError "connection refused"), [])
       | r :: w' => (r, w')
       end |}.

Definition tool_named (n : str) : Tool :=
  {| name := n; description := Some n; inputSchema := JObject [] |}.

(** A tool session with the two tools of the example server; every call
    answers with one text block. *)
Definition two_tools {W} : ToolProvider W :=
  {| list_tools := fun w => (Ret [tool_named "random_joke"; tool_named "book_recs"], w);
     call_tool := fun tname args w =>
       (Ret {| result_content := [TextContent ("result of " ++ tname)];
               model_dump_json := "{}" |}, w) |}.

(** A tool session that lists the same name twice. *)
Definition twin_tools {W} : ToolProvider W :=
  {| list_tools := fun w =>
       (Ret [ {| name := "random_joke"; description := Some (py "first");
                 inputSchema := JObject [] |};
              {| name := "random_joke"; description := Some (py "second");
                 inputSchema := JObject [] |} ], w);
     call_tool := fun tname args w => (Raise (ExternalError "unavailable"), w) |}.

Definition example_index : dict Tool :=
  tool_index_of [tool_named "random_joke"; tool_named "book_recs"].

(** A run starts with nothing printed and no call made. *)
Definition start {W} (w : W) (h : list Message) : State W :=
  Build_State w h [] [] [].

Definition system_message : Message := message "system" (JString "You are a helper.").

(** ** The shapes of a well-formed action *)

(** [ToolCall{name, args}]: an object whose ["action"] is a string other
    than ["final"], with ["args"] absent or an object. *)
Definition is_tool_call (v : JSON) : bool :=
  match v with
  | JObject d =>
      match dict_get d "action" with
      | Some (JString n) =>
          negb (str_eqb n "final") &&
          match dict_get d "args" with
          | None | Some (JObject _) => true
          | Some _ => false
          end
      | _ => false
      end
  | _ => false
  end.

(** [FinalAnswer{text}]: an object whose ["action"] is ["final"] and whose
    ["answer"] is a string. *)
Definition is_final_answer (v : JSON) : bool :=
  match v with
  | JObject d =>
      match dict_get d "action", dict_get d "answer" with
      | Some (JString a), Some (JString _) => str_eqb a "final"
      | _, _ => false
      end
  | _ => false
  end.

Definition is_action (v : JSON) : bool := is_tool_call v || is_final_answer v.

(** The messages an iteration appends after a tool call was attempted. *)
Definition is_tool_result (m : Message) : Prop :=
  role m = py "assistant" /\
  exists tname text : str,
    content m = JString ("[tool:" ++ tname ++ "] " ++ text) \/
    content m = JString ("[error] Tool call failed: " ++ text).

(** A Python dict, which is what [llm_json] is declared to return. *)
Definition is_dict (v : JSON) : bool :=
  match v with
  | JObject _ => true
  | _ => false
  end.

(** What an iteration records of the call of the tool [tname], by the
    outcome of the call: the message it appends and the lines it prints.
    A result with a text block first, or with no block at all, is
    recorded as a tool result; a call that raised, or a first block
    without text, as an error. *)
Definition call_failure (e : Exn) : Message * list Output :=
  ({| role := "assistant";
      content := JString ("[error] Tool call failed: " ++ exn_str e) |},
   [Print ("[ERROR] Tool call failed: " ++ exn_str e)]).

Definition call_report (tname : str) (outcome : Res CallToolResult)
  : Message * list Output :=
  match outcome with
  | Raise e => call_failure e
  | Ret result =>
      match result_content result with
      | [] =>
          ({| role := "assistant";
              content := JString ("[tool:" ++ tname ++ "] " ++ model_dump_json result) |},
           [])
      | TextContent text :: _ =>
          ({| role := "assistant";
              content := JString ("[tool:" ++ tname ++ "] " ++ text) |}, [])
      | OtherContent ty :: _ => call_failure (AttributeError ty "text")
      end
  end.

(** The state after one more [chat] call that left the world in [w]. *)
Definition after_chat {W} (st : State W) (req : ChatRequest) (w : W) : State W :=
  Build_State w (history st) (stdout st) (chat_calls st ++ [req]) (tool_calls st).

(** The two concatenated objects of the first-object example. *)
Definition two_objects : str :=
  quoted "{'action':'final','answer':'A'}{'action':'final','answer':'B'}".

(** The backend always answers with a tool call for a tool of the index:
    whatever it is asked, its reply decodes to an object whose action is
    the name of an indexed tool (and not the word final). *)
Definition always_tool_call {D : JsonDecoder} {W : Type} {C : Completer W}
  (tool_index : dict Tool) : Prop :=
  forall (req : ChatRequest) (w : W),
    exists (reply : str) (w' : W) (d : dict JSON) (tname : str),
      chat req w = (Ret reply, w') /\
      json_loads (strip reply) = Some (JObject d) /\
      dict_get d "action" = Some (JString tname) /\
      tname <> py "final" /\
      dict_mem tool_index tname = true.

(** The values [json.loads] gives for the reply [raw]: for the trimmed
    text, for its first balanced span, or for the reply of the repair
    completion asked in the world [w]. *)
Definition decoded_from {D : JsonDecoder} {W : Type} {C : Completer W}
  (raw : str) (w : W) (v : JSON) : Prop :=
  json_loads (strip raw) = Some v \/
  first_object (strip raw) = Some v \/
  exists (fixed : str) (w2 : W),
    chat (repair_request (strip raw)) w = (Ret fixed, w2) /\
    json_loads (strip fixed) = Some v.

(** [n] iterations in a row, from [st] to [st'], each of which calls a
    tool: the backend is sent the history of the moment, its reply decodes
    to a call of [tname], the tool is called with the [args] of the reply
    (an empty dict when there is none), and what [call_report] says is
    appended and printed. *)
Fixpoint tool_rounds {D : JsonDecoder} {W : Type} {C : Completer W}
  {T : ToolProvider W} (n : nat) (st st' : State W) : Prop :=
  match n with
  | O => st' = st
  | S k =>
      exists (reply : str) (w : W) (d : dict JSON) (tname : str),
        chat (primary_request (history st)) (world st) = (Ret reply, w) /\
        json_loads (strip reply) = Some (JObject d) /\
        dict_get d "action" = Some (JString tname) /\
        let args := match dict_get d "args" with
                    | Some v => v
                    | None => JObject []
                    end in
        let (outcome, w2) := call_tool tname args w in
        let (m, outs) := call_report tname outcome in
        tool_rounds k
          (Build_State w2 (history st ++ [m]) (stdout st ++ outs)
             (chat_calls st ++ [primary_request (history st)])
             (tool_calls st ++ [(tname, args)])) st'
  end.

(** A computation only ever adds messages at the end of the history,
    whether it returns or raises. *)
Definition extends_history {W A : Type} (c : M W A) : Prop :=
  forall st : State W,
    exists suffix : list Message, history (snd (c st)) = history st ++ suffix.

(** A backend that gives the same reply to every call. *)
Definition constant_reply (reply : str) : Completer unit :=
  {| chat := fun _ w => (Ret reply, w) |}.

Definition joke_call : str := quoted "{'action':'random_joke','args':{}}".

(** The report of a failed tool call, the only line an iteration prints
    when its decision is a call of an indexed tool. *)
Definition is_tool_failure_print (o : Output) : Prop :=
  exists text : str, o = Print ("[ERROR] Tool call failed: " ++ text).

(** A JSON text for a string: the quotation mark and the backslash are
    escaped with a backslash, a control character is written as a
    [\u00XX] escape, every other character stands for itself. *)
Definition escape_char (c : char) : str :=
  if (c =? c_quote)%N then [chr "\"; c_quote]
  else if (c =? chr "\")%N then [chr "\"; chr "\"]
  else if (c <? 32)%N then
    [chr "\"; chr "u"; chr "0"; chr "0"; hex_char (c / 16); hex_char (c mod 16)]
  else [c].

(** The text [{"action":"final","answer":"..."}] for the answer [X]. *)
Definition final_text (X : str) : str :=
  quoted "{'action':'final','answer':'" ++ flat_map escape_char X ++ quoted "'}".

(** [new] is [old] with between [lo] and [hi] more entries at its end, all
    satisfying [P]. *)
Definition adds {X : Type} (old new : list X) (lo hi : nat) (P : X -> Prop)
  : Prop :=
  exists l : list X,
    new = old ++ l /\ (lo <= List.length l <= hi)%nat /\ Forall P l.

Definition is_assistant (m : Message) : Prop := role m = py "assistant".

Definition is_user (m : Message) : bool := str_eqb (role m) "user".

(** The state [session] gives to its loop: the history holds the system
    message only. *)
Definition session_start {W} (st : State W) (system_with_tools : str) : State W :=
  Build_State (world st) [message "system" (JString system_with_tools)]
    (stdout st) (chat_calls st) (tool_calls st).

(** The state after the prompt of [input] was written. *)
Definition prompted {W} (st : State W) : State W :=
  Build_State (world st) (history st) (stdout st ++ [Prompt (10%N :: "You: ")])
    (chat_calls st) (tool_calls st).

(** ** The tool descriptions of the system prompt (lines 101-118) *)

(** [str(v)], which is what an f-string inserts. *)
Definition py_str {R : PyRepr} (v : JSON) : str :=
  match v with
  | JNull => "None"
  | JBool true => "True"
  | JBool false => "False"
  | JInt z => str_of_Z z
  | JString s => s
  | JFloat _ | JArray _ | JObject _ => py_repr v
  end.

(** The exceptions of the description loop. *)
Inductive SchemaError : Type :=
| NoAttribute (type_name attr : str)   (* [AttributeError] *)
| NotIterable (type_name : str).       (* the [TypeError] of [x in v] *)

Inductive Try (A : Type) : Type :=
| Ok (a : A)
| Err (e : SchemaError).
Arguments Ok {A} a.
Arguments Err {A} e.

(** [p in v] for a string [p]: an equal item of a list, a substring of a
    string, a key of a dict; the other values are not iterable. *)
Definition py_in (p : str) (v : JSON) : Try bool :=
  match v with
  | JArray items => Ok (existsb (fun item => py_eq_str item p) items)
  | JString s => Ok (contains p s)
  | JObject d => Ok (dict_mem d p)
  | JNull | JBool _ | JInt _ | JFloat _ => Err (NotIterable (type_name v))
  end.

(** The newline. *)
Definition nl : str := [10%N].

(** [sep.join(parts)] *)
Fixpoint join (sep : str) (parts : list str) : str :=
  match parts with
  | [] => []
  | [p] => p
  | p :: rest => p ++ sep ++ join sep rest
  end.

Section Descriptions.

Context {R : PyRepr}.

(** Lines 109-112: the line of one parameter. *)
Definition param_line (required : JSON) (param_name : str) (param_info : JSON)
  : Try str :=
  match param_info with
  | JObject info =>
      let param_type :=
        match dict_get info "type" with Some v => v | None => JString "any" end in
      match py_in param_name required with
      | Ok is_required =>
          let req_marker : str :=
            if is_required then " (required)" else " (optional)" in
          Ok ("    - " ++ param_name ++ ": " ++ py_str param_type ++ req_marker)
      | Err e => Err e
      end
  | _ => Err (NoAttribute (type_name param_info) "get")
  end.

(** Lines 108-112: the loop over the items of [properties]; [params] is
    the list built so far. *)
Fixpoint param_lines (required : JSON) (properties : dict JSON)
  (params : list str) : Try (list str) :=
  match properties with
  | [] => Ok params
  | (param_name, param_info) :: rest =>
      match param_line required param_name param_info with
      | Ok line => param_lines required rest (params ++ [line])
      | Err e => Err e
      end
  end.

(** [f"- {t.name}: {t.description}"] *)
Definition schema_header (t : Tool) : str :=
  "- " ++ name t ++ ": " ++
  match description t with Some d => d | None => py "None" end.

(** The members of [t.inputSchema], which is a dict by the declared type
    of the field. *)
Definition schema_members (t : Tool) : dict JSON :=
  match inputSchema t with
  | JObject d => d
  | _ => []
  end.

(** Lines 104-114: the description of one tool. *)
Definition tool_schema (t : Tool) : Try str :=
  let schema := schema_header t in
  let d := schema_members t in
  if match d with [] => false | _ :: _ => true end && dict_mem d "properties" then
    let required :=
      match dict_get d "required" with Some v => v | None => JArray [] end in
    match dict_get d "properties" with
    | Some (JObject properties) =>
        match param_lines required properties [] with
        | Ok [] => Ok schema
        | Ok params => Ok (schema ++ nl ++ join nl params)
        | Err e => Err e
        end
    | Some v => Err (NoAttribute (type_name v) "items")
    | None => Ok schema
    end
  else Ok schema.

(** Lines 102-115: the loop over the tools; [tool_schemas] is the list
    built so far. *)
Fixpoint tool_schemas_from (tools : list Tool) (tool_schemas : list str)
  : Try (list str) :=
  match tools with
  | [] => Ok tool_schemas
  | t :: rest =>
      match tool_schema t with
      | Ok schema => tool_schemas_from rest (tool_schemas ++ [schema])
      | Err e => Err e
      end
  end.

(** Line 117. *)
Definition tool_desc (tools : list Tool) : Try str :=
  match tool_schemas_from tools [] with
  | Ok tool_schemas => Ok (join nl tool_schemas)
  | Err e => Err e
  end.

(** Line 118, for the text [SYSTEM] of the protocol instructions. *)
Definition system_with_tools (SYSTEM : str) (tools : list Tool) : Try str :=
  match tool_desc tools with
  | Ok desc => Ok (SYSTEM ++ nl ++ nl ++ "Available tools:" ++ nl ++ desc)
  | Err e => Err e
  end.

(** The line of a parameter whose description is an object, for a
    [required] that is the list [items]. *)
Definition listed_line (items : list JSON) (p : str * JSON) : str :=
  "    - " ++ fst p ++ ": " ++
  py_str (match snd p with
          | JObject info =>
              match dict_get info "type" with Some v => v | None => JString "any" end
          | _ => JString "any"
          end) ++
  (if existsb (fun item => py_eq_str item (fst p)) items
   then py " (required)" else py " (optional)").

End Descriptions.


(** The descriptor of a book search with a topic and a limit. *)
Definition book_tool : Tool :=
  {| name := "book_recs";
     description := Some (py "Recommend books");
     inputSchema :=
       JObject
         [(py "type", JString "object");
          (py "properties",
           JObject [(py "topic", JObject [(py "type", JString "string")]);
                    (py "limit", JObject [(py "default", JInt 3)])]);
          (py "required", JArray [JString "topic"])] |}.

(** A descriptor whose properties are given as a list. *)
Definition broken_tool : Tool :=
  {| name := "broken";
     description := None;
     inputSchema :=
       JObject [(py "properties", JArray [JString "topic"])] |}.

(** ** Basic facts *)

Lemma str_eqb_refl (a : str) : str_eqb a a = true.
Proof.
  induction a as [|x a IH]; simpl; [reflexivity|].
  now rewrite N.eqb_refl, IH.
Qed.

Lemma str_eqb_eq (a b : str) : str_eqb a b = true <-> a = b.
Proof.
  split.
  - revert b; induction a as [|x a IH]; destruct b as [|y b]; simpl; try easy.
    intros H. apply andb_true_iff in H as [Hx Hr].
    apply N.eqb_eq in Hx. apply IH in Hr. now subst.
  - intros ->. apply str_eqb_refl.
Qed.

Lemma str_eqb_neq (a b : str) : str_eqb a b = false <-> a <> b.
Proof.
  split.
  - intros H E. apply str_eqb_eq in E. congruence.
  - intros H. destruct (str_eqb a b) eqn:E; [|reflexivity].
    apply str_eqb_eq in E. contradiction.
Qed.

Lemma final_answer_is_action (txt : str) : is_action (final_answer txt) = true.
Proof. reflexivity. Qed.

(** ** The parser *)

Section Parser.

Context {D : JsonDecoder} {W : Type} {C : Completer W}.

(** The parser, step by step, once the completion has returned [raw]. *)
Lemma llm_json_unfold (msgs : list Message) (st : State W) (raw : str) (w : W) :
  chat (primary_request msgs) (world st) = (Ret raw, w) ->
  llm_json msgs st =
    let txt := strip raw in
    let st1 := after_chat st (primary_request msgs) w in
    match json_loads txt with
    | Some v => (Ret v, st1)
    | None =>
        if negb (startswith txt "{") && negb (contains "action" txt)
        then (Ret (final_answer txt), st1)
        else
          match first_object txt with
          | Some v => (Ret v, st1)
          | None =>
              match chat (repair_request txt) w with
              | (Ret fixed, w2) =>
                  (Ret (match json_loads (strip fixed) with
                        | Some v => v
                        | None => final_answer txt
                        end),
                   after_chat st1 (repair_request txt) w2)
              | (Raise _, w2) =>
                  (Ret (final_answer txt), after_chat st1 (repair_request txt) w2)
              end
          end
    end.
Proof.
  intros H. unfold llm_json, bind, do_chat. rewrite H. cbv zeta.
  destruct (json_loads (strip raw)) as [v|]; [reflexivity|].
  destruct (negb _ && negb _); [reflexivity|].
  destruct (first_object (strip raw)) as [v|]; [reflexivity|].
  unfold try_except, do_chat, after_chat; simpl.
  destruct (chat (repair_request (strip raw)) w) as [[fixed|e] w2]; simpl.
  - destruct (json_loads (strip fixed)); reflexivity.
  - reflexivity.
Qed.


(** The result of [llm_json] once the completion has returned [raw]: a
    decoded value, or the final answer wrapping the trimmed text. *)
Lemma llm_json_result (msgs : list Message) (st : State W) (raw : str) (w : W) :
  chat (primary_request msgs) (world st) = (Ret raw, w) ->
  exists (v : JSON) (st' : State W),
    llm_json msgs st = (Ret v, st') /\
    history st' = history st /\
    (v = final_answer (strip raw) \/ decoded_from raw w v) /\
    (json_loads (strip raw) = None ->
     first_object (strip raw) = None ->
     (forall fixed w2,
        chat (repair_request (strip raw)) w = (Ret fixed, w2) ->
        json_loads (strip fixed) = None) ->
     v = final_answer (strip raw)).
Proof.
  intros H. rewrite (llm_json_unfold _ _ _ _ H). cbv zeta. unfold decoded_from.
  destruct (json_loads (strip raw)) as [v|] eqn:E1.
  { exists v, (after_chat st (primary_request msgs) w).
    repeat split; auto; discriminate. }
  destruct (negb _ && negb _) eqn:E2.
  { eexists _, _. repeat split; auto. }
  destruct (first_object (strip raw)) as [v|] eqn:E3.
  { exists v, (after_chat st (primary_request msgs) w).
    repeat split; auto; discriminate. }
  destruct (chat (repair_request (strip raw)) w) as [[fixed|e] w2] eqn:E4.
  - destruct (json_loads (strip fixed)) as [v|] eqn:E5.
    + eexists _, _. split; [reflexivity|]. split; [reflexivity|]. split.
      * right; right; right. now exists fixed, w2.
      * intros _ _ Hfix. specialize (Hfix fixed w2 eq_refl). congruence.
    + eexists _, _. repeat split; auto.
  - eexists _, _. repeat split; auto.
Qed.

(** C1 (as amended).  Once the completion has returned [raw], [llm_json]
    never raises and does not touch the history.  When [json.loads] gives
    nothing but dicts for the reply (for the trimmed text, for its first
    balanced span and for the reply of the repair completion), the result
    is a dict: one of those, returned as decoded, or the final answer
    wrapping the trimmed text.  And it is that final answer, a
    well-formed action, whenever none of the three decodes. *)
Theorem llm_json_total (msgs : list Message) (st : State W) (raw : str) (w : W) :
  chat (primary_request msgs) (world st) = (Ret raw, w) ->
  exists (v : JSON) (st' : State W),
    llm_json msgs st = (Ret v, st') /\
    history st' = history st /\
    ((forall u, decoded_from raw w u -> is_dict u = true) ->
     is_dict v = true /\
     (v = final_answer (strip raw) \/ decoded_from raw w v)) /\
    (json_loads (strip raw) = None ->
     first_object (strip raw) = None ->
     (forall fixed w2,
        chat (repair_request (strip raw)) w = (Ret fixed, w2) ->
        json_loads (strip fixed) = None) ->
     v = final_answer (strip raw) /\ is_action v = true).
Proof.
  intros H.
  destruct (llm_json_result msgs st raw w H) as (v & st' & Hrun & Hh & Hv & Hworst).
  exists v, st'. split; [exact Hrun|]. split; [exact Hh|]. split.
  - intros Hdict. split; [|exact Hv].
    destruct Hv as [->|Hv]; [reflexivity|now apply Hdict].
  - intros H1 H2 H3. rewrite (Hworst H1 H2 H3). now split.
Qed.

(** C6 (as amended).  When the trimmed reply is not valid JSON, does not
    begin with a brace and does not contain the word action, [llm_json]
    returns the final answer wrapping the trimmed reply, after the one
    completion call and no repair call. *)
Theorem plain_text_wrapped (msgs : list Message) (st : State W) (raw : str) (w : W) :
  chat (primary_request msgs) (world st) = (Ret raw, w) ->
  json_loads (strip raw) = None ->
  startswith (strip raw) "{" = false ->
  contains "action" (strip raw) = false ->
  llm_json msgs st =
    (Ret (final_answer (strip raw)), after_chat st (primary_request msgs) w).
Proof.
  intros H Hj Hs Hc. rewrite (llm_json_unfold _ _ _ _ H). cbv zeta.
  now rewrite Hj, Hs, Hc.
Qed.

End Parser.

(** C1, as stated, fails: the reply [{}] is valid JSON, so [llm_json]
    returns the empty dict, which is neither a tool call nor a final
    answer. *)
Lemma llm_json_returns_non_action :
  exists (v : JSON) (st' : State (list (Res str))),
    @llm_json python_json _ scripted [system_message]
      (start [Ret (py "{}")] [system_message]) = (Ret v, st') /\
    v = JObject [] /\ is_action v = false.
Proof. eexists _, _. split; [vm_compute; reflexivity|]. split; reflexivity. Qed.

Lemma llm_json_total_witness :
  exists (v : JSON) (st' : State (list (Res str))),
    @llm_json python_json _ scripted [system_message]
      (start [Ret (py "{action")] [system_message]) = (Ret v, st') /\
    v = final_answer "{action".
Proof.
  destruct (@llm_json_total python_json _ scripted [system_message]
              (start [Ret (py "{action")] [system_message]) "{action" [] eq_refl)
    as (v & st' & Hrun & _ & _ & Hworst).
  exists v, st'. split; [exact Hrun|].
  apply Hworst; try reflexivity.
  intros fixed w2 Hc. vm_compute in Hc. discriminate Hc.
Defined.

(** C6, as stated, fails: a reply with a leading blank is wrapped without
    it, so the text of the final answer is not the raw reply. *)
Lemma plain_text_not_raw :
  let raw : str := " Hello, here is your answer." in
  Decoder.loads raw = None /\
  startswith (strip raw) "{" = false /\
  contains "action" (strip raw) = false /\
  fst (@llm_json python_json _ scripted [system_message]
         (start [Ret raw] [system_message]))
    = Ret (final_answer "Hello, here is your answer.") /\
  final_answer "Hello, here is your answer." <> final_answer raw.
Proof.
  cbv zeta. repeat split; try (vm_compute; reflexivity).
  vm_compute. discriminate.
Qed.

Lemma plain_text_wrapped_witness :
  @llm_json python_json _ scripted [system_message]
     (start [Ret (py "Hello, here is your answer.")] [system_message])
  = (Ret (final_answer (strip "Hello, here is your answer.")),
     after_chat (start [Ret (py "Hello, here is your answer.")] [system_message])
       (primary_request [system_message]) []).
Proof.
  apply (@plain_text_wrapped python_json _ scripted); vm_compute; reflexivity.
Defined.

(** C5.  On the two concatenated objects the direct decode fails, the text
    begins with a brace, and the brace count finds the first object,
    which is decoded and returned: the final answer A, after the one
    completion call. *)
Theorem first_object_wins {W : Type} {C : Completer W}
  (msgs : list Message) (st : State W) (w : W) :
  chat (primary_request msgs) (world st) = (Ret two_objects, w) ->
  Decoder.loads (strip two_objects) = None /\
  @first_object python_json (strip two_objects) = Some (final_answer "A") /\
  @llm_json python_json W C msgs st =
    (Ret (final_answer "A"), after_chat st (primary_request msgs) w).
Proof.
  intros H.
  assert (E1 : Decoder.loads (strip two_objects) = None)
    by (vm_compute; reflexivity).
  assert (E2 : @first_object python_json (strip two_objects)
               = Some (final_answer "A")) by (vm_compute; reflexivity).
  assert (E3 : startswith (strip two_objects) "{" = true)
    by (vm_compute; reflexivity).
  repeat split; auto.
  rewrite (llm_json_unfold _ _ _ _ H). cbv zeta.
  change (@json_loads python_json) with Decoder.loads.
  now rewrite E1, E3, E2.
Qed.

Lemma first_object_wins_witness :
  @llm_json python_json _ scripted [system_message]
     (start [Ret two_objects] [system_message])
  = (Ret (final_answer "A"),
     after_chat (start [Ret two_objects] [system_message])
       (primary_request [system_message]) []).
Proof.
  apply (@first_object_wins _ scripted [system_message]
           (start [Ret two_objects] [system_message]) []).
  reflexivity.
Defined.

Section Loop.

Context {D : JsonDecoder} {W : Type} {C : Completer W} {T : ToolProvider W}
        {R : PyRepr}.

(** [llm_json] only talks to the backend: history, terminal and tool log
    are as before. *)
Lemma llm_json_frame (msgs : list Message) (st st1 : State W) (r : Res JSON) :
  llm_json msgs st = (r, st1) ->
  history st1 = history st /\ stdout st1 = stdout st /\
  tool_calls st1 = tool_calls st.
Proof.
  unfold llm_json, bind, do_chat.
  destruct (chat (primary_request msgs) (world st)) as [[raw|e] w].
  - destruct (json_loads (strip raw)) as [v|].
    { intros [= <- <-]; auto. }
    destruct (negb _ && negb _).
    { intros [= <- <-]; auto. }
    destruct (first_object (strip raw)) as [v|].
    { intros [= <- <-]; auto. }
    unfold try_except, do_chat; simpl.
    destruct (chat (repair_request (strip raw)) w) as [[fixed|e] w2]; simpl.
    + destruct (json_loads (strip fixed)); intros [= <- <-]; auto.
    + intros [= <- <-]; auto.
  - intros [= <- <-]; auto.
Qed.

(** Writing to the terminal. *)
Lemma encodable_app (a b : str) :
  encodable (a ++ b) = encodable a && encodable b.
Proof. apply forallb_app. Qed.

Lemma print_line_ok (line : str) (st : State W) :
  encodable line = true -> print_line line st = emit (Print line) st.
Proof. intros H. unfold print_line. now rewrite H. Qed.

Lemma print_line_fails (line : str) (st : State W) :
  encodable line = false ->
  print_line line st = (Raise (UnicodeEncodeError line), st).
Proof. intros H. unfold print_line. now rewrite H. Qed.

Lemma print_agent_ok (answer : JSON) (st : State W) :
  printable answer = true -> print_agent answer st = emit (PrintAgent answer) st.
Proof.
  intros H. destruct answer; try reflexivity.
  simpl in *. now rewrite H.
Qed.

Lemma print_agent_fails (s : str) (st : State W) :
  encodable s = false ->
  print_agent (JString s) st =
    (Raise (UnicodeEncodeError s),
     Build_State (world st) (history st) (stdout st ++ [PrintAgentCut])
       (chat_calls st) (tool_calls st)).
Proof. intros H. unfold print_agent. now rewrite H. Qed.

(** A [print] touches nothing but the terminal, also when it raises. *)
Lemma print_line_frame (line : str) (st st' : State W) (r : Res unit) :
  print_line line st = (r, st') ->
  world st' = world st /\ history st' = history st /\
  chat_calls st' = chat_calls st /\ tool_calls st' = tool_calls st.
Proof.
  unfold print_line. destruct (encodable line); intros [= <- <-]; auto.
Qed.

Lemma print_agent_frame (answer : JSON) (st st' : State W) (r : Res unit) :
  print_agent answer st = (r, st') ->
  world st' = world st /\ history st' = history st /\
  chat_calls st' = chat_calls st /\ tool_calls st' = tool_calls st.
Proof.
  destruct answer; try (intros [= <- <-]; auto).
  unfold print_agent. destruct (encodable s); intros [= <- <-]; auto.
Qed.

(** An iteration whose decision is a final answer that can be printed. *)
Lemma iteration_final (tool_index : dict Tool) (i : nat) (st st1 : State W)
  (d : dict JSON) :
  llm_json (history st) st = (Ret (JObject d), st1) ->
  dict_get d "action" = Some (JString "final") ->
  let answer := match dict_get d "answer" with
                | Some v => v
                | None => JString []
                end in
  printable answer = true ->
  iteration_body tool_index i st =
    (Ret Break,
     Build_State (world st1) (history st1 ++ [message "assistant" answer])
       (stdout st1 ++ [PrintAgent answer]) (chat_calls st1) (tool_calls st1)).
Proof.
  intros Hrun Hact answer Hp.
  unfold iteration_body, bind, get_history, try_except. rewrite Hrun.
  unfold py_get, ret. rewrite Hact.
  change (py_eq_str (JString "final") "final") with true. cbv beta iota.
  fold answer. rewrite (print_agent_ok _ _ Hp). reflexivity.
Qed.

(** An iteration whose decision is a final answer that cannot be printed:
    the exception of [print] leaves the iteration before the answer is
    appended. *)
Lemma iteration_final_unprintable (tool_index : dict Tool) (i : nat)
  (st st1 : State W) (d : dict JSON) (X : str) :
  llm_json (history st) st = (Ret (JObject d), st1) ->
  dict_get d "action" = Some (JString "final") ->
  dict_get d "answer" = Some (JString X) ->
  encodable X = false ->
  iteration_body tool_index i st =
    (Raise (UnicodeEncodeError X),
     Build_State (world st1) (history st1) (stdout st1 ++ [PrintAgentCut])
       (chat_calls st1) (tool_calls st1)).
Proof.
  intros Hrun Hact Hx Hp.
  unfold iteration_body, bind, get_history, try_except. rewrite Hrun.
  unfold py_get, ret. rewrite Hact.
  change (py_eq_str (JString "final") "final") with true. cbv beta iota.
  rewrite Hx, (print_agent_fails _ _ Hp). reflexivity.
Qed.

(** An iteration whose decision names a tool that is not in the index. *)
Lemma iteration_unknown (tool_index : dict Tool) (i : nat) (st st1 : State W)
  (d : dict JSON) (tname : str) :
  llm_json (history st) st = (Ret (JObject d), st1) ->
  dict_get d "action" = Some (JString tname) ->
  tname <> py "final" ->
  dict_mem tool_index tname = false ->
  iteration_body tool_index i st =
    (print_line ("[ERROR] Unknown tool: " ++ tname) ;;
     append (message "assistant" (JString ("(unknown tool " ++ tname ++ ")"))) ;;
     ret Next) st1.
Proof.
  intros Hrun Ha Hne Hmem.
  apply str_eqb_neq in Hne.
  unfold iteration_body, bind, get_history, try_except. rewrite Hrun.
  unfold py_get, ret. rewrite Ha.
  simpl. rewrite Hne. simpl. rewrite Hmem. reflexivity.
Qed.

(** C7.  When the reply decodes directly to an object whose action is
    final and whose answer is the string [X], [llm_json] returns that
    object, a final answer with the text [X], after the one completion
    call (no repair call); and when the terminal can write [X], the
    iteration prints [X], appends it as the assistant message and leaves
    the loop. *)
Theorem direct_decode_final (tool_index : dict Tool) (i : nat) (st : State W)
  (raw : str) (w : W) (d : dict JSON) (X : str) :
  chat (primary_request (history st)) (world st) = (Ret raw, w) ->
  json_loads (strip raw) = Some (JObject d) ->
  dict_get d "action" = Some (JString "final") ->
  dict_get d "answer" = Some (JString X) ->
  llm_json (history st) st =
    (Ret (JObject d), after_chat st (primary_request (history st)) w) /\
  is_final_answer (JObject d) = true /\
  (encodable X = true ->
   iteration_body tool_index i st =
     (Ret Break,
      Build_State w (history st ++ [message "assistant" (JString X)])
        (stdout st ++ [PrintAgent (JString X)])
        (chat_calls st ++ [primary_request (history st)]) (tool_calls st))).
Proof.
  intros H Hj Ha Hx.
  assert (Hrun : llm_json (history st) st =
            (Ret (JObject d), after_chat st (primary_request (history st)) w)).
  { rewrite (llm_json_unfold _ _ _ _ H). cbv zeta. now rewrite Hj. }
  split; [exact Hrun|]. split.
  - simpl. now rewrite Ha, Hx.
  - intros Hp. rewrite (iteration_final tool_index i _ _ _ Hrun Ha).
    + now rewrite Hx.
    + now rewrite Hx.
Qed.

(** C10.  When the decision is an object whose action is final and which
    has no answer key, the iteration takes the empty string for the
    answer: it prints it, appends it as the assistant message and leaves
    the loop; no exception is raised and no further completion call is
    made. *)
Theorem final_without_answer (tool_index : dict Tool) (i : nat)
  (rest : list nat) (st st1 : State W) (d : dict JSON) :
  llm_json (history st) st = (Ret (JObject d), st1) ->
  dict_get d "action" = Some (JString "final") ->
  dict_get d "answer" = None ->
  let st' := Build_State (world st1)
               (history st ++ [message "assistant" (JString [])])
               (stdout st ++ [PrintAgent (JString [])])
               (chat_calls st1) (tool_calls st) in
  iteration_body tool_index i st = (Ret Break, st') /\
  for_in (i :: rest) (iteration_body tool_index) st = (Ret tt, st').
Proof.
  intros Hrun Ha Hx st'.
  assert (Hbody : iteration_body tool_index i st = (Ret Break, st')).
  { rewrite (iteration_final tool_index i _ _ _ Hrun Ha).
    - rewrite Hx.
      destruct (llm_json_frame _ _ _ _ Hrun) as (-> & -> & ->). reflexivity.
    - now rewrite Hx. }
  split; [exact Hbody|].
  simpl. unfold bind. now rewrite Hbody.
Qed.

(** C8, where the code departs from it.  When the decision is a tool
    call whose name is not in the index and holds a character the
    terminal cannot encode (a lone surrogate), the [print] of the report
    raises [UnicodeEncodeError] outside every [try]: nothing is printed,
    no message is appended, and the exception leaves the iteration and
    the loop, whose later iterations do not run. *)
Theorem unknown_tool_unprintable_raises (tool_index : dict Tool) (i : nat)
  (rest : list nat) (st st1 : State W) (d : dict JSON) (tname : str) :
  llm_json (history st) st = (Ret (JObject d), st1) ->
  dict_get d "action" = Some (JString tname) ->
  tname <> py "final" ->
  dict_mem tool_index tname = false ->
  encodable tname = false ->
  let e := UnicodeEncodeError ("[ERROR] Unknown tool: " ++ tname) in
  let st' := Build_State (world st1) (history st) (stdout st)
               (chat_calls st1) (tool_calls st) in
  iteration_body tool_index i st = (Raise e, st') /\
  for_in (i :: rest) (iteration_body tool_index) st = (Raise e, st').
Proof.
  intros Hrun Ha Hne Hmem Hp e st'.
  assert (Hbody : iteration_body tool_index i st = (Raise e, st')).
  { rewrite (iteration_unknown tool_index i _ _ _ _ Hrun Ha Hne Hmem).
    unfold bind at 1. rewrite print_line_fails.
    - destruct (llm_json_frame _ _ _ _ Hrun) as (Hh & Ho & Ht).
      unfold st'. rewrite <- Hh, <- Ho, <- Ht. now destruct st1.
    - rewrite encodable_app, Hp. apply andb_false_r. }
  split; [exact Hbody|].
  simpl. unfold bind. now rewrite Hbody.
Qed.

(** When the decision is a tool call whose name is not in the index and
    can be written to the terminal, the iteration reports it, appends the
    assistant message (unknown tool NAME) and goes on with the next
    iteration. *)
Theorem unknown_tool_continues (tool_index : dict Tool) (i : nat)
  (rest : list nat) (st st1 : State W) (d : dict JSON) (tname : str) :
  llm_json (history st) st = (Ret (JObject d), st1) ->
  dict_get d "action" = Some (JString tname) ->
  tname <> py "final" ->
  dict_mem tool_index tname = false ->
  encodable tname = true ->
  let st' := Build_State (world st1)
               (history st ++
                  [message "assistant" (JString ("(unknown tool " ++ tname ++ ")"))])
               (stdout st ++ [Print ("[ERROR] Unknown tool: " ++ tname)])
               (chat_calls st1) (tool_calls st) in
  iteration_body tool_index i st = (Ret Next, st') /\
  for_in (i :: rest) (iteration_body tool_index) st =
    for_in rest (iteration_body tool_index) st'.
Proof.
  intros Hrun Ha Hne Hmem Hp st'.
  assert (Hbody : iteration_body tool_index i st = (Ret Next, st')).
  { rewrite (iteration_unknown tool_index i _ _ _ _ Hrun Ha Hne Hmem).
    unfold bind at 1. rewrite print_line_ok.
    - destruct (llm_json_frame _ _ _ _ Hrun) as (Hh & Ho & Ht).
      unfold st'. rewrite <- Hh, <- Ho, <- Ht. reflexivity.
    - rewrite encodable_app, Hp. reflexivity. }
  split; [exact Hbody|].
  simpl. unfold bind. now rewrite Hbody.
Qed.

(** C4.  When the completion call of an iteration raises, the iteration
    prints the error and leaves the loop: the turn is over, nothing was
    appended to the history, and no other call was made. *)
Theorem completion_failure_aborts (tool_index : dict Tool) (i : nat)
  (rest : list nat) (st : State W) (e : Exn) (w : W) :
  chat (primary_request (history st)) (world st) = (Raise e, w) ->
  let st' := Build_State w (history st)
               (stdout st ++
                  [Print ("[ERROR] Failed to get valid JSON from LLM: " ++ exn_str e)])
               (chat_calls st ++ [primary_request (history st)])
               (tool_calls st) in
  iteration_body tool_index i st = (Ret Break, st') /\
  for_in (i :: rest) (iteration_body tool_index) st = (Ret tt, st').
Proof.
  intros H st'.
  assert (Hbody : iteration_body tool_index i st = (Ret Break, st')).
  { unfold iteration_body, bind, get_history, try_except, llm_json, bind, do_chat.
    rewrite H. reflexivity. }
  split; [exact Hbody|].
  simpl. unfold bind. now rewrite Hbody.
Qed.

End Loop.

Lemma direct_decode_final_witness :
  let st := start [Ret (quoted "{'action':'final','answer':'It is 4.'}")]
              [system_message] in
  @iteration_body python_json _ scripted two_tools no_repr example_index 0 st =
    (Ret Break,
     Build_State [] ([system_message] ++ [message "assistant" (JString "It is 4.")])
       ([] ++ [PrintAgent (JString "It is 4.")])
       ([] ++ [primary_request [system_message]]) []).
Proof.
  cbv zeta.
  apply (@direct_decode_final python_json _ scripted two_tools no_repr example_index 0
           (start [Ret (quoted "{'action':'final','answer':'It is 4.'}")]
              [system_message])
           (quoted "{'action':'final','answer':'It is 4.'}") []
           [(py "action", JString "final"); (py "answer", JString "It is 4.")]
           "It is 4.");
    vm_compute; reflexivity.
Defined.

(** ** The reference decoder reads back every escaped string *)

Lemma scanstring_plain (c : char) (s acc : str) :
  c <> c_quote -> c <> chr "\" -> (32 <= c)%N ->
  Decoder.scanstring (c :: s) acc = Decoder.scanstring s (c :: acc).
Proof.
  intros Hq Hb Hc. apply N.eqb_neq in Hq, Hb.
  cbn [Decoder.scanstring]. rewrite Hq, Hb.
  apply N.ltb_ge in Hc. now rewrite Hc.
Qed.

Lemma scanstring_control (c : char) (s acc : str) :
  (c < 32)%N ->
  Decoder.scanstring
    (chr "\" :: chr "u" :: chr "0" :: chr "0" ::
     hex_char (c / 16) :: hex_char (c mod 16) :: s) acc
  = Decoder.scanstring s (c :: acc).
Proof.
  intros Hc.
  assert (E : Decoder.hex4 (chr "0") (chr "0") (hex_char (c / 16))
                (hex_char (c mod 16)) = Some c).
  { assert (Hn : exists n : nat, (n < 32)%nat /\ c = N.of_nat n).
    { exists (N.to_nat c). split; lia. }
    destruct Hn as (n & Hn & ->).
    do 32 (destruct n as [|n]; [reflexivity|]). lia. }
  change (Decoder.scanstring
            (chr "\" :: chr "u" :: chr "0" :: chr "0" ::
             hex_char (c / 16) :: hex_char (c mod 16) :: s) acc)
    with (match Decoder.hex4 (chr "0") (chr "0") (hex_char (c / 16))
                  (hex_char (c mod 16)) with
          | None => None
          | Some uni =>
              if Decoder.is_high_surrogate uni then
                match s with
                | b :: u :: g1 :: g2 :: g3 :: g4 :: rest3 =>
                    if ((b =? chr "\") && (u =? chr "u"))%N then
                      match Decoder.hex4 g1 g2 g3 g4 with
                      | None => None
                      | Some uni2 =>
                          if Decoder.is_low_surrogate uni2
                          then Decoder.scanstring rest3
                                 (Decoder.join_surrogates uni uni2 :: acc)
                          else Decoder.scanstring s (uni :: acc)
                      end
                    else Decoder.scanstring s (uni :: acc)
                | _ => Decoder.scanstring s (uni :: acc)
                end
              else Decoder.scanstring s (uni :: acc)
          end).
  rewrite E.
  assert (Hs : Decoder.is_high_surrogate c = false).
  { unfold Decoder.is_high_surrogate. apply andb_false_iff. left.
    apply N.leb_gt. lia. }
  now rewrite Hs.
Qed.

Lemma scanstring_escaped (X : str) (acc rest : str) :
  Decoder.scanstring (flat_map escape_char X ++ c_quote :: rest) acc
  = Some (rev acc ++ X, rest).
Proof.
  revert acc. induction X as [|c X IH]; intros acc.
  - simpl. now rewrite app_nil_r.
  - change (flat_map escape_char (c :: X))
      with (escape_char c ++ flat_map escape_char X).
    rewrite <- app_assoc.
    set (tail := flat_map escape_char X ++ c_quote :: rest) in *.
    assert (Hstep : Decoder.scanstring (escape_char c ++ tail) acc
                    = Decoder.scanstring tail (c :: acc)).
    { unfold escape_char.
      destruct (c =? c_quote)%N eqn:Eq.
      { apply N.eqb_eq in Eq. subst c. reflexivity. }
      destruct (c =? chr "\")%N eqn:Eb.
      { apply N.eqb_eq in Eb. subst c. reflexivity. }
      destruct (c <? 32)%N eqn:Ec.
      { apply N.ltb_lt in Ec. now apply scanstring_control. }
      apply N.eqb_neq in Eq, Eb. apply N.ltb_ge in Ec.
      now apply scanstring_plain. }
    rewrite Hstep, IH. simpl. now rewrite <- app_assoc.
Qed.

(** The reference decoder reads [final_text X] as the final answer [X],
    for every string [X]. *)
(** One member whose value is a string, followed by a comma and the
    quote of the next key. *)
Lemma parse_members_more (f : nat) (s s2 s5 key val : str)
  (pairs : list (str * JSON)) :
  Decoder.scanstring s [] = Some (key, chr ":" :: c_quote :: s2) ->
  Decoder.scanstring s2 [] = Some (val, chr "," :: c_quote :: s5) ->
  Decoder.parse_members (S (S f)) s pairs
  = Decoder.parse_members (S f) s5 ((key, JString val) :: pairs).
Proof.
  intros H1 H2.
  cbn [Decoder.parse_members]. rewrite H1.
  change (Decoder.skip_ws (chr ":" :: c_quote :: s2))
    with (chr ":" :: c_quote :: s2).
  cbv iota. rewrite N.eqb_refl.
  change (Decoder.skip_ws (c_quote :: s2)) with (c_quote :: s2).
  cbn [Decoder.scan_once]. rewrite N.eqb_refl, H2.
  reflexivity.
Qed.

(** The last member, whose value is a string, followed by the closing
    brace. *)
Lemma parse_members_last (f : nat) (s s2 s4 key val : str)
  (pairs : list (str * JSON)) :
  Decoder.scanstring s [] = Some (key, chr ":" :: c_quote :: s2) ->
  Decoder.scanstring s2 [] = Some (val, chr "}" :: s4) ->
  Decoder.parse_members (S (S f)) s pairs
  = Some (JObject (dict_of_pairs (rev ((key, JString val) :: pairs))), s4).
Proof.
  intros H1 H2.
  cbn [Decoder.parse_members]. rewrite H1.
  change (Decoder.skip_ws (chr ":" :: c_quote :: s2))
    with (chr ":" :: c_quote :: s2).
  cbv iota. rewrite N.eqb_refl.
  change (Decoder.skip_ws (c_quote :: s2)) with (c_quote :: s2).
  cbn [Decoder.scan_once]. rewrite N.eqb_refl, H2.
  reflexivity.
Qed.

Lemma loads_final_tail (tail X : str) :
  Decoder.scanstring tail [] = Some (X, [chr "}"]) ->
  Decoder.loads (quoted "{'action':'final','answer':'" ++ tail)
  = Some (final_answer X).
Proof.
  intros H. unfold Decoder.loads.
  set (after_answer := py "answer" ++ c_quote :: chr ":" :: c_quote :: tail).
  set (members := py "action" ++ c_quote :: chr ":" :: c_quote ::
                  py "final" ++ c_quote :: chr "," :: c_quote :: after_answer).
  change (quoted "{'action':'final','answer':'" ++ tail)
    with (chr "{" :: c_quote :: members).
  change (startswith (chr "{" :: c_quote :: members) [65279%N]) with false.
  cbv iota.
  change (Decoder.skip_ws (chr "{" :: c_quote :: members))
    with (chr "{" :: c_quote :: members).
  assert (Hfuel : exists f, List.length (chr "{" :: c_quote :: members)
                            = S (S (S f))).
  { subst members. cbn [List.length app py map list_ascii_of_string].
    eexists. reflexivity. }
  destruct Hfuel as [f ->].
  change (Decoder.scan_once (S (S (S (S f)))) (chr "{" :: c_quote :: members))
    with (Decoder.parse_members (S (S (S f))) members []).
  rewrite (parse_members_more (S f) members
             (py "final" ++ c_quote :: chr "," :: c_quote :: after_answer)
             after_answer "action" "final" [] eq_refl eq_refl).
  rewrite (parse_members_last f after_answer tail [] "answer" X
             [(py "action", JString "final")] eq_refl H).
  reflexivity.
Qed.

Lemma loads_final_text (X : str) :
  Decoder.loads (final_text X) = Some (final_answer X).
Proof.
  unfold final_text. apply loads_final_tail.
  change (quoted "'}") with (c_quote :: [chr "}"]).
  now rewrite scanstring_escaped.
Qed.

Lemma strip_final_text (X : str) : strip (final_text X) = final_text X.
Proof.
  unfold final_text, strip, rstrip.
  set (s := quoted "{'action':'final','answer':'" ++
            flat_map escape_char X ++ quoted "'}").
  assert (Hl : lstrip s = s) by reflexivity.
  rewrite Hl.
  pose (s' := removelast s).
  assert (E : s = s' ++ [chr "}"]).
  { subst s' s. change (quoted "'}") with ([c_quote] ++ [chr "}"]).
    rewrite !app_assoc. now rewrite removelast_last. }
  clearbody s'. rewrite E, rev_app_distr.
  change (lstrip (rev [chr "}"] ++ rev s')) with (rev [chr "}"] ++ rev s').
  now rewrite <- rev_app_distr, rev_involutive.
Qed.

(** With the reference decoder, for every string [X], the reply
    [final_text X] is decoded directly to the final answer [X], after the
    one completion call. *)
Lemma direct_decode_canonical {W : Type} {C : Completer W}
  (msgs : list Message) (st : State W) (w : W) (X : str) :
  chat (primary_request msgs) (world st) = (Ret (final_text X), w) ->
  @llm_json python_json W C msgs st =
    (Ret (final_answer X), after_chat st (primary_request msgs) w).
Proof.
  intros H. rewrite (llm_json_unfold _ _ _ _ H). cbv zeta.
  rewrite strip_final_text.
  change (@json_loads python_json) with Decoder.loads.
  now rewrite loads_final_text.
Qed.

(** ** The iteration budget *)

Section Budget.

Context {D : JsonDecoder} {W : Type} {C : Completer W} {T : ToolProvider W}
        {R : PyRepr}.

(** One iteration under [always_tool_call]: one completion call, one tool
    call attempted, one tool-result message appended, no answer printed,
    and the loop goes on. *)
Lemma iteration_tool_call (tool_index : dict Tool) (i : nat) (st : State W) :
  always_tool_call tool_index ->
  exists (st' : State W) (m : Message) (call : str * JSON) (outs : list Output),
    iteration_body tool_index i st = (Ret Next, st') /\
    history st' = history st ++ [m] /\ is_tool_result m /\
    tool_calls st' = tool_calls st ++ [call] /\
    chat_calls st' = chat_calls st ++ [primary_request (history st)] /\
    stdout st' = stdout st ++ outs /\
    Forall is_tool_failure_print outs.
Proof.
  intros Hall.
  destruct (Hall (primary_request (history st)) (world st))
    as (reply & w & d & tname & Hchat & Hj & Ha & Hne & Hmem).
  assert (Hrun : llm_json (history st) st =
            (Ret (JObject d), after_chat st (primary_request (history st)) w)).
  { rewrite (llm_json_unfold _ _ _ _ Hchat). cbv zeta. now rewrite Hj. }
  apply str_eqb_neq in Hne.
  unfold iteration_body, bind, get_history, try_except. rewrite Hrun.
  unfold py_get, ret. rewrite Ha. simpl. rewrite Hne. simpl. rewrite Hmem. simpl.
  unfold do_call_tool. simpl.
  set (args := match dict_get d "args" with Some v => v | None => JObject [] end).
  destruct (call_tool tname args w) as [[result|e] w2].
  - unfold lift_res. destruct (payload_of result) as [payload|e]; simpl.
    + eexists _, _, _, []. repeat split; simpl; try reflexivity.
      * exists tname, payload. now left.
      * now rewrite app_nil_r.
      * constructor.
    + eexists _, _, _, [_]. repeat split; simpl; try reflexivity.
      * exists tname, (exn_str e). now right.
      * repeat constructor. now exists (exn_str e).
  - eexists _, _, _, [_]. repeat split; simpl; try reflexivity.
    + exists tname, (exn_str e). now right.
    + repeat constructor. now exists (exn_str e).
Qed.

(** The loop under [always_tool_call], for any number of iterations. *)
Lemma for_in_tool_calls (tool_index : dict Tool) (xs : list nat) :
  always_tool_call tool_index ->
  forall st : State W,
  exists (st' : State W) (msgs : list Message) (calls : list (str * JSON))
         (reqs : list ChatRequest) (outs : list Output),
    for_in xs (iteration_body tool_index) st = (Ret tt, st') /\
    history st' = history st ++ msgs /\
    List.length msgs = List.length xs /\ Forall is_tool_result msgs /\
    tool_calls st' = tool_calls st ++ calls /\
    List.length calls = List.length xs /\
    chat_calls st' = chat_calls st ++ reqs /\
    List.length reqs = List.length xs /\
    stdout st' = stdout st ++ outs /\
    Forall is_tool_failure_print outs.
Proof.
  intros Hall. induction xs as [|i xs IH]; intros st.
  - exists st, [], [], [], []. simpl. rewrite !app_nil_r. repeat split; auto.
  - destruct (iteration_tool_call tool_index i st Hall)
      as (st1 & m & call & outs1 & Hbody & Hh & Hm & Ht & Hc & Ho & Hp).
    destruct (IH st1)
      as (st2 & msgs & calls & reqs & outs & Hrun & Hh2 & Hl & Hf & Ht2 & Hlc
          & Hc2 & Hlr & Ho2 & Hp2).
    exists st2, (m :: msgs), (call :: calls),
      (primary_request (history st) :: reqs), (outs1 ++ outs).
    simpl. unfold bind. rewrite Hbody.
    repeat split.
    + exact Hrun.
    + rewrite Hh2, Hh, <- app_assoc. reflexivity.
    + now rewrite Hl.
    + now constructor.
    + rewrite Ht2, Ht, <- app_assoc. reflexivity.
    + now rewrite Hlc.
    + rewrite Hc2, Hc, <- app_assoc. reflexivity.
    + now rewrite Hlr.
    + rewrite Ho2, Ho, <- app_assoc. reflexivity.
    + apply Forall_app. now split.
Qed.

(** One iteration under [always_tool_call], in full: the state it leaves
    is given by the reply, the outcome of the call and [call_report]. *)
Lemma iteration_tool_round (tool_index : dict Tool) (i : nat) (st : State W) :
  always_tool_call tool_index ->
  exists (reply : str) (w : W) (d : dict JSON) (tname : str),
    chat (primary_request (history st)) (world st) = (Ret reply, w) /\
    json_loads (strip reply) = Some (JObject d) /\
    dict_get d "action" = Some (JString tname) /\
    let args := match dict_get d "args" with
                | Some v => v
                | None => JObject []
                end in
    iteration_body tool_index i st =
      let (outcome, w2) := call_tool tname args w in
      let (m, outs) := call_report tname outcome in
      (Ret Next,
       Build_State w2 (history st ++ [m]) (stdout st ++ outs)
         (chat_calls st ++ [primary_request (history st)])
         (tool_calls st ++ [(tname, args)])).
Proof.
  intros Hall.
  destruct (Hall (primary_request (history st)) (world st))
    as (reply & w & d & tname & Hchat & Hj & Ha & Hne & Hmem).
  exists reply, w, d, tname. repeat split; auto.
  assert (Hrun : llm_json (history st) st =
            (Ret (JObject d), after_chat st (primary_request (history st)) w)).
  { rewrite (llm_json_unfold _ _ _ _ Hchat). cbv zeta. now rewrite Hj. }
  apply str_eqb_neq in Hne.
  unfold iteration_body, bind, get_history, try_except. rewrite Hrun.
  unfold py_get, ret. rewrite Ha. simpl. rewrite Hne. simpl. rewrite Hmem. simpl.
  unfold do_call_tool. simpl.
  destruct (call_tool tname _ w) as [[result|e] w2].
  - unfold lift_res, payload_of, call_report.
    destruct (result_content result) as [|[text|ty] blocks]; simpl;
      rewrite ?app_nil_r; reflexivity.
  - reflexivity.
Qed.

Lemma for_in_tool_rounds (tool_index : dict Tool) (xs : list nat) :
  always_tool_call tool_index ->
  forall st : State W,
  exists st' : State W,
    for_in xs (iteration_body tool_index) st = (Ret tt, st') /\
    tool_rounds (List.length xs) st st'.
Proof.
  intros Hall. induction xs as [|i xs IH]; intros st.
  - exists st. split; reflexivity.
  - destruct (iteration_tool_round tool_index i st Hall)
      as (reply & w & d & tname & Hchat & Hj & Ha & Hbody).
    cbv zeta in Hbody. cbn [for_in List.length tool_rounds]. unfold bind.
    rewrite Hbody.
    destruct (call_tool tname _ w) as [outcome w2] eqn:Hcall.
    destruct (call_report tname outcome) as [m outs] eqn:Hrep.
    destruct (IH (Build_State w2 (history st ++ [m]) (stdout st ++ outs)
                    (chat_calls st ++ [primary_request (history st)])
                    (tool_calls st ++
                       [(tname,
                         match dict_get d "args" with
                         | Some v => v
                         | None => JObject []
                         end)]))) as (st' & Hrun & Hrounds).
    exists st'. split; [exact Hrun|].
    exists reply, w, d, tname. repeat split; auto.
    cbv zeta. now rewrite Hcall, Hrep.
Qed.

(** C3 (as amended).  When the backend always answers with a tool call
    for an indexed tool, a user turn with a budget of [n] iterations uses
    all of them and then just ends, returning nothing (the unit value, as
    every turn that does not raise): the state it leaves is that of [n]
    rounds of [tool_rounds] after the user message, each with its
    completion call, its tool call and the message and lines of
    [call_report].  So [n] completion calls were made and [n] tool calls
    attempted, the history holds the user message followed by [n]
    tool-result messages, and the only lines printed are reports of
    failed tool calls (no answer, no completion failure).  The turn of
    the program is the case [n = 6]. *)
Theorem turn_exhausts_budget (tool_index : dict Tool) (user : str)
  (st : State W) (n : nat) :
  always_tool_call tool_index ->
  exists (st' : State W) (msgs : list Message) (calls : list (str * JSON))
         (reqs : list ChatRequest) (outs : list Output),
    (append (message "user" (JString user)) ;;
     for_in (seq 0 n) (iteration_body tool_index)) st = (Ret tt, st') /\
    (n = 6%nat -> turn tool_index user st = (Ret tt, st')) /\
    tool_rounds n
      (Build_State (world st) (history st ++ [message "user" (JString user)])
         (stdout st) (chat_calls st) (tool_calls st)) st' /\
    history st' = history st ++ message "user" (JString user) :: msgs /\
    List.length msgs = n /\ Forall is_tool_result msgs /\
    tool_calls st' = tool_calls st ++ calls /\ List.length calls = n /\
    chat_calls st' = chat_calls st ++ reqs /\ List.length reqs = n /\
    stdout st' = stdout st ++ outs /\
    Forall is_tool_failure_print outs.
Proof.
  intros Hall. unfold turn, bind, append.
  set (st0 := Build_State (world st)
                (history st ++ [message "user" (JString user)]) (stdout st)
                (chat_calls st) (tool_calls st)).
  destruct (for_in_tool_calls tool_index (seq 0 n) Hall st0)
    as (st' & msgs & calls & reqs & outs & Hrun & Hh & Hl & Hf & Ht & Hlc
        & Hc & Hlr & Ho & Hp).
  destruct (for_in_tool_rounds tool_index (seq 0 n) Hall st0)
    as (st'' & Hrun' & Hrounds).
  assert (st'' = st') by congruence. subst st''.
  rewrite length_seq in Hl, Hlc, Hlr, Hrounds.
  exists st', msgs, calls, reqs, outs.
  repeat split; auto.
  - intros ->. exact Hrun.
  - rewrite Hh. simpl. rewrite <- app_assoc. reflexivity.
Qed.

End Budget.

(** C3, as stated, fails: no outcome is returned to the caller.  The turn
    that used up its six iterations on tool calls returns the unit value,
    as the turn ended by a final answer and the turn ended by a failed
    completion do, and it prints nothing. *)
Lemma exhausted_turn_returns_nothing :
  let exhausted :=
    @turn python_json unit (constant_reply joke_call) two_tools no_repr
      example_index "tell me a joke" (start tt [system_message]) in
  let answered :=
    @turn python_json _ scripted two_tools no_repr example_index "hi"
      (start [Ret (quoted "{'action':'final','answer':'Hello.'}")]
         [system_message]) in
  let failed :=
    @turn python_json _ scripted two_tools no_repr example_index "hi"
      (start [] [system_message]) in
  fst exhausted = Ret tt /\ fst answered = Ret tt /\ fst failed = Ret tt /\
  stdout (snd exhausted) = [] /\
  List.length (tool_calls (snd exhausted)) = 6%nat /\
  stdout (snd answered) = [PrintAgent (JString "Hello.")].
Proof. vm_compute. repeat split. Qed.

Lemma turn_exhausts_budget_witness :
  exists (st' : State unit) (msgs : list Message),
    @turn python_json unit (constant_reply joke_call) two_tools no_repr
      example_index "tell me a joke" (start tt [system_message]) = (Ret tt, st') /\
    history st' =
      [system_message] ++ message "user" (JString "tell me a joke") :: msgs /\
    List.length msgs = 6%nat.
Proof.
  assert (Hall : @always_tool_call python_json unit (constant_reply joke_call)
                   example_index).
  { intros req w. exists joke_call, w.
    exists [(py "action", JString "random_joke"); (py "args", JObject [])].
    exists (py "random_joke").
    repeat split; try (vm_compute; reflexivity).
    vm_compute. discriminate. }
  destruct (@turn_exhausts_budget python_json unit (constant_reply joke_call)
              two_tools no_repr example_index "tell me a joke"
              (start tt [system_message]) 6 Hall)
    as (st' & msgs & _ & _ & _ & _ & Hrun & _ & Hh & Hl & _).
  exists st', msgs. auto.
Defined.

(** ** The history is append-only *)

Create HintDb hist discriminated.

Section AppendOnly.

Context {D : JsonDecoder} {W : Type} {C : Completer W} {T : ToolProvider W}
        {R : PyRepr}.

Lemma extends_same {A} (c : M W A) :
  (forall st, history (snd (c st)) = history st) -> extends_history c.
Proof. intros H st. exists []. now rewrite app_nil_r. Qed.

Lemma extends_ret {A} (a : A) : extends_history (@ret W A a).
Proof. now apply extends_same. Qed.

Lemma extends_raise {A} (e : Exn) : extends_history (@raise W A e).
Proof. now apply extends_same. Qed.

Lemma extends_bind {A B} (c : M W A) (k : A -> M W B) :
  extends_history c -> (forall a, extends_history (k a)) ->
  extends_history (bind c k).
Proof.
  intros Hc Hk st. unfold bind. destruct (Hc st) as [s1 H1].
  destruct (c st) as [[a|e] st1]; simpl in *.
  - destruct (Hk a st1) as [s2 H2]. exists (s1 ++ s2).
    now rewrite H2, H1, app_assoc.
  - now exists s1.
Qed.

Lemma extends_try {A} (c : M W A) :
  extends_history c -> extends_history (try_except c).
Proof.
  intros Hc st. unfold try_except. destruct (Hc st) as [s1 H1].
  destruct (c st) as [[a|e] st1]; simpl in *; now exists s1.
Qed.

Lemma extends_finally {A} (c : M W A) (f : M W unit) :
  extends_history c -> extends_history f -> extends_history (finally c f).
Proof.
  intros Hc Hf st. unfold finally. destruct (Hc st) as [s1 H1].
  destruct (c st) as [r st1]; simpl in *.
  destruct (Hf st1) as [s2 H2].
  destruct (f st1) as [[u|e] st2]; simpl in *;
    exists (s1 ++ s2); now rewrite H2, H1, app_assoc.
Qed.

Lemma extends_append (m : Message) : extends_history (@append W m).
Proof. intros st. now exists [m]. Qed.

Lemma extends_emit (o : Output) : extends_history (@emit W o).
Proof. now apply extends_same. Qed.

Lemma extends_get_history : extends_history (@get_history W).
Proof. now apply extends_same. Qed.

Lemma extends_lift_res {A} (r : Res A) : extends_history (@lift_res W A r).
Proof. now apply extends_same. Qed.

Lemma extends_do_chat (req : ChatRequest) : extends_history (do_chat req).
Proof.
  apply extends_same. intros st. unfold do_chat.
  now destruct (chat req (world st)).
Qed.

Lemma extends_do_call_tool (tname : str) (args : JSON) :
  extends_history (do_call_tool tname args).
Proof.
  apply extends_same. intros st. unfold do_call_tool.
  now destruct (call_tool tname args (world st)).
Qed.

Lemma extends_py_get (obj : JSON) (key : str) (default : JSON) :
  extends_history (@py_get W obj key default).
Proof. destruct obj; now apply extends_same. Qed.

Lemma extends_hashed (v : JSON) : extends_history (@hashed W v).
Proof. destruct v; now apply extends_same. Qed.

Lemma extends_print_line (line : str) : extends_history (@print_line W line).
Proof.
  apply extends_same. intros st. unfold print_line.
  now destruct (encodable line).
Qed.

Lemma extends_print_agent (answer : JSON) :
  extends_history (@print_agent W answer).
Proof.
  apply extends_same. intros st. destruct answer; try reflexivity.
  unfold print_agent. now destruct (encodable s).
Qed.

Hint Resolve extends_ret extends_raise extends_try extends_append extends_emit
  extends_get_history extends_lift_res extends_do_chat extends_do_call_tool
  extends_py_get extends_hashed extends_print_line extends_print_agent : hist.

Ltac hist_step :=
  first [ solve [auto with hist]
        | apply extends_try
        | apply extends_bind; [|intros ?]
        | match goal with
          | |- extends_history (match ?x with _ => _ end) => destruct x
          | |- extends_history (if ?b then _ else _) => destruct b
          end ].

Lemma extends_llm_json (msgs : list Message) : extends_history (llm_json msgs).
Proof.
  apply extends_same. intros st.
  destruct (llm_json msgs st) as [r st1] eqn:E.
  now destruct (llm_json_frame _ _ _ _ E) as (H & _).
Qed.

Hint Resolve extends_llm_json : hist.

Lemma extends_iteration_body (tool_index : dict Tool) (i : nat) :
  extends_history (iteration_body tool_index i).
Proof. unfold iteration_body. repeat hist_step. Qed.

Lemma extends_for_in {A} (xs : list A) (body : A -> M W Flow) :
  (forall x, extends_history (body x)) -> extends_history (for_in xs body).
Proof.
  intros Hb. induction xs as [|x xs IH]; simpl; [auto with hist|].
  apply extends_bind; [apply Hb|]. intros [|]; auto with hist.
Qed.

Lemma extends_turn (tool_index : dict Tool) (user : str) :
  extends_history (turn tool_index user).
Proof.
  unfold turn. apply extends_bind; [auto with hist|]. intros _.
  apply extends_for_in. apply extends_iteration_body.
Qed.

(** C9.  An iteration, a turn, and the whole read-and-answer loop over any
    sequence of input lines leave the history they started from as a
    prefix of the history they end with, whether they return or raise:
    messages are only ever added at the end. *)
Theorem history_append_only (tool_index : dict Tool) :
  (forall i : nat, extends_history (iteration_body tool_index i)) /\
  (forall user : str, extends_history (turn tool_index user)) /\
  (forall stdin : list str, extends_history (repl tool_index stdin)).
Proof.
  split; [apply extends_iteration_body|]. split; [apply extends_turn|].
  induction stdin as [|line rest IH]; simpl.
  - apply extends_bind; auto with hist.
  - apply extends_bind; [auto with hist|]. intros _.
    destruct (is_quit (strip line)); [auto with hist|].
    apply extends_bind; [apply extends_turn|]. intros _. exact IH.
Qed.

End AppendOnly.

(** ** The tool index *)

Lemma dict_get_set {V} (d : dict V) (k n : str) (v : V) :
  dict_get (dict_set d k v) n = if str_eqb k n then Some v else dict_get d n.
Proof.
  induction d as [|[k' v'] d IH]; simpl; [reflexivity|].
  destruct (str_eqb k' k) eqn:E; simpl.
  - apply str_eqb_eq in E. subst k'. now destruct (str_eqb k n).
  - destruct (str_eqb k' n) eqn:E'.
    + apply str_eqb_eq in E'. subst k'.
      destruct (str_eqb k n) eqn:E2; [|reflexivity].
      apply str_eqb_eq in E2. subst k. now rewrite str_eqb_refl in E.
    + exact IH.
Qed.

Lemma find_snoc {A} (p : A -> bool) (l : list A) (a : A) :
  List.find p (l ++ [a]) =
  match List.find p l with
  | Some x => Some x
  | None => if p a then Some a else None
  end.
Proof.
  induction l as [|x l IH]; simpl; [reflexivity|].
  now destruct (p x).
Qed.

Lemma tool_index_fold (tools : list Tool) (d0 : dict Tool) (n : str) :
  dict_get (fold_left (fun d kv => dict_set d (fst kv) (snd kv))
              (map (fun t => (name t, t)) tools) d0) n =
  match List.find (fun t => str_eqb (name t) n) (rev tools) with
  | Some t => Some t
  | None => dict_get d0 n
  end.
Proof.
  revert d0. induction tools as [|t tools IH]; intros d0; simpl; [reflexivity|].
  rewrite IH, find_snoc, dict_get_set. simpl.
  destruct (List.find _ (rev tools)); [reflexivity|].
  now destruct (str_eqb (name t) n).
Qed.

Lemma NoDup_map_inj {A B} (f : A -> B) (l : list A) (a b : A) :
  NoDup (map f l) -> In a l -> In b l -> f a = f b -> a = b.
Proof.
  induction l as [|x l IH]; simpl; [easy|].
  intros Hnd Ha Hb E. inversion Hnd as [|? ? Hnin Hnd']; subst.
  destruct Ha as [<-|Ha], Hb as [<-|Hb]; auto.
  - exfalso. apply Hnin. rewrite E. now apply in_map.
  - exfalso. apply Hnin. rewrite <- E. now apply in_map.
Qed.

(** C2 (as amended).  Building the index never fails, whatever the names:
    under each name it holds the last descriptor listed with that name,
    so a descriptor listed earlier under the same name is dropped; when
    the names are pairwise distinct, every descriptor is found under its
    name. *)
Theorem tool_index_last_wins {W : Type} {T : ToolProvider W}
  (tools : list Tool) (st : State W) (w : W) :
  list_tools (world st) = (Ret tools, w) ->
  (exists st', connect st = (Ret (tool_index_of tools), st')) /\
  (forall n : str,
     dict_get (tool_index_of tools) n =
     List.find (fun t => str_eqb (name t) n) (rev tools)) /\
  (NoDup (map name tools) ->
   forall t : Tool, In t tools ->
     dict_get (tool_index_of tools) (name t) = Some t).
Proof.
  intros Hl.
  assert (Hget : forall n, dict_get (tool_index_of tools) n =
                   List.find (fun t => str_eqb (name t) n) (rev tools)).
  { intros n. unfold tool_index_of, dict_of_pairs. rewrite tool_index_fold.
    now destruct (List.find _ (rev tools)). }
  split; [|split].
  - unfold connect, bind, do_list_tools, emit, ret. rewrite Hl.
    eexists. reflexivity.
  - exact Hget.
  - intros Hnd t Hin. rewrite Hget.
    destruct (List.find _ (rev tools)) as [t'|] eqn:E.
    + apply find_some in E as [Hin' E]. apply str_eqb_eq in E.
      apply in_rev in Hin'.
      f_equal. now apply (NoDup_map_inj name tools).
    + exfalso. apply in_rev in Hin.
      apply (find_none _ _ E) in Hin. now rewrite str_eqb_refl in Hin.
Qed.

(** C2, as stated, fails: with two descriptors of the same name the build
    succeeds, and the index holds the second one only. *)
Lemma connect_accepts_duplicate_names :
  exists (first second : Tool) (st' : State unit),
    fst (@list_tools unit twin_tools tt) = Ret [first; second] /\
    name first = name second /\ first <> second /\
    @connect unit twin_tools (start tt []) =
      (Ret [(py "random_joke", second)], st').
Proof.
  do 3 eexists. split; [reflexivity|]. split; [reflexivity|].
  split; [discriminate|]. vm_compute. reflexivity.
Qed.

Lemma tool_index_last_wins_witness :
  dict_get example_index "book_recs" = Some (tool_named "book_recs").
Proof.
  destruct (@tool_index_last_wins unit two_tools
              [tool_named "random_joke"; tool_named "book_recs"]
              (start tt []) tt eq_refl) as (_ & _ & Hdistinct).
  assert (H : NoDup (map name [tool_named "random_joke"; tool_named "book_recs"])).
  { repeat constructor; simpl; intuition discriminate. }
  apply (Hdistinct H (tool_named "book_recs")). simpl; auto.
Defined.

Lemma completion_failure_aborts_witness :
  let st := start [] [system_message; message "user" (JString "hi")] in
  for_in [0; 1; 2]%nat
     (@iteration_body python_json _ scripted two_tools no_repr example_index) st =
    (Ret tt,
     Build_State [] (history st)
       ([] ++ [Print ("[ERROR] Failed to get valid JSON from LLM: " ++
                      exn_str (ExternalError "connection refused"))])
       ([] ++ [primary_request (history st)]) []).
Proof.
  cbv zeta.
  apply (@completion_failure_aborts python_json _ scripted two_tools no_repr
           example_index 0%nat [1; 2]%nat
           (start [] [system_message; message "user" (JString "hi")])
           (ExternalError "connection refused") []).
  reflexivity.
Defined.

Lemma unknown_tool_continues_witness :
  let st := start [Ret (quoted "{'action':'weather','args':{}}")]
              [system_message] in
  fst (@iteration_body python_json _ scripted two_tools no_repr example_index 0 st)
    = Ret Next /\
  history (snd (@iteration_body python_json _ scripted two_tools no_repr
                  example_index 0 st))
    = [system_message;
       message "assistant" (JString "(unknown tool weather)")].
Proof.
  cbv zeta.
  destruct (@unknown_tool_continues python_json _ scripted two_tools no_repr
              example_index 0%nat []
              (start [Ret (quoted "{'action':'weather','args':{}}")]
                 [system_message])
              (after_chat
                 (start [Ret (quoted "{'action':'weather','args':{}}")]
                    [system_message])
                 (primary_request [system_message]) [])
              [(py "action", JString "weather"); (py "args", JObject [])]
              "weather") as [Hbody _].
  - vm_compute; reflexivity.
  - reflexivity.
  - vm_compute; discriminate.
  - reflexivity.
  - reflexivity.
  - rewrite Hbody. split; reflexivity.
Defined.

(** The reply [{"action":"\ud800"}] names the unknown tool made of one
    lone surrogate: the iteration raises, and the history is left without
    the (unknown tool ...) message.  In a session, the exception ends the
    program after the first line of input: the second line is not read. *)
Lemma unknown_tool_unprintable_raises_witness :
  (let st := start [Ret (quoted "{'action':'\ud800'}")] [system_message] in
   @iteration_body python_json _ scripted two_tools no_repr example_index 0 st =
     (Raise (UnicodeEncodeError ("[ERROR] Unknown tool: " ++ [55296%N])),
      Build_State [] [system_message] [] [primary_request [system_message]] [])) /\
  (let run :=
     @session python_json _ scripted two_tools no_repr example_index
       "You are a helper." [py "hi"; py "tell me a joke"]
       (start [Ret (quoted "{'action':'\ud800'}"); Ret joke_call] []) in
   fst run = Raise (UnicodeEncodeError ("[ERROR] Unknown tool: " ++ [55296%N])) /\
   history (snd run) =
     [message "system" (JString "You are a helper.");
      message "user" (JString "hi")] /\
   stdout (snd run) = [Prompt (10%N :: "You: "); Closed]).
Proof.
  cbv zeta. split.
  - destruct (@unknown_tool_unprintable_raises python_json _ scripted two_tools
                no_repr example_index 0%nat []
                (start [Ret (quoted "{'action':'\ud800'}")] [system_message])
                (after_chat
                   (start [Ret (quoted "{'action':'\ud800'}")] [system_message])
                   (primary_request [system_message]) [])
                [(py "action", JString [55296%N])]
                [55296%N]) as [Hbody _].
    + vm_compute; reflexivity.
    + reflexivity.
    + vm_compute; discriminate.
    + reflexivity.
    + reflexivity.
    + exact Hbody.
  - vm_compute. repeat split.
Defined.

Lemma final_without_answer_witness :
  let st := start [Ret (quoted "{'action':'final'}")] [system_message] in
  fst (@iteration_body python_json _ scripted two_tools no_repr example_index 0 st)
    = Ret Break /\
  history (snd (@iteration_body python_json _ scripted two_tools no_repr
                  example_index 0 st))
    = [system_message; message "assistant" (JString [])].
Proof.
  cbv zeta.
  destruct (@final_without_answer python_json _ scripted two_tools no_repr
              example_index 0%nat []
              (start [Ret (quoted "{'action':'final'}")] [system_message])
              (after_chat
                 (start [Ret (quoted "{'action':'final'}")] [system_message])
                 (primary_request [system_message]) [])
              [(py "action", JString "final")]) as [Hbody _].
  - vm_compute; reflexivity.
  - reflexivity.
  - reflexivity.
  - rewrite Hbody. split; reflexivity.
Defined.

(** * Further properties of the program *)

(** ** The parser: calls made, failures, the brace scan *)

Section ParserCalls.

Context {D : JsonDecoder} {W : Type} {C : Completer W}.

(** [llm_json] raises exactly when the first reply cannot be had, that
    is when [chat] raises: the completion call of line 41, or the reading
    of the content of its reply on line 42, both outside the [try].  It
    then raises that same exception, with the one call made and nothing
    else done.  Every later failure (decoding, brace scan, repair call,
    reading the repaired reply) is absorbed. *)
Theorem llm_json_raises_iff (msgs : list Message) (st st' : State W) (e : Exn) :
  llm_json msgs st = (Raise e, st') <->
  exists w : W,
    chat (primary_request msgs) (world st) = (Raise e, w) /\
    st' = after_chat st (primary_request msgs) w.
Proof.
  destruct (chat (primary_request msgs) (world st)) as [[raw|e0] w] eqn:E.
  - split.
    + intros H. rewrite (llm_json_unfold _ _ _ _ E) in H.
      cbv zeta in H.
      destruct (json_loads (strip raw)); [discriminate|].
      destruct (negb _ && negb _); [discriminate|].
      destruct (first_object (strip raw)); [discriminate|].
      destruct (chat (repair_request (strip raw)) w) as [[fixed|e'] w2];
        discriminate.
    + intros (w' & H & _). discriminate.
  - unfold llm_json, bind, do_chat. rewrite E. unfold after_chat. split.
    + intros [= <- <-]. now exists w.
    + intros (w' & [= <- <-] & ->). reflexivity.
Qed.

(** The completion calls of one [llm_json]: the first one always, and the
    repair call exactly when the trimmed reply does not decode, looks like
    JSON (it begins with a brace or contains the word action) and no first
    object could be extracted from it. *)
Theorem llm_json_chat_calls (msgs : list Message) (st : State W) (raw : str)
  (w : W) :
  chat (primary_request msgs) (world st) = (Ret raw, w) ->
  let txt := strip raw in
  let needs_repair :=
    match json_loads txt, first_object txt with
    | None, None => startswith txt "{" || contains "action" txt
    | _, _ => false
    end in
  chat_calls (snd (llm_json msgs st)) =
    chat_calls st ++
      (if needs_repair
       then [primary_request msgs; repair_request txt]
       else [primary_request msgs]).
Proof.
  intros H. rewrite (llm_json_unfold _ _ _ _ H). cbv zeta.
  destruct (json_loads (strip raw)); [reflexivity|].
  destruct (startswith (strip raw) "{"), (contains "action" (strip raw));
    simpl;
    destruct (first_object (strip raw)); try reflexivity;
    destruct (chat (repair_request (strip raw)) w) as [[fixed|e] w2];
    simpl; now rewrite <- app_assoc.
Qed.

(** A reply with at most one opening brace is never handed to the brace
    scan: when it does not decode and begins with a brace, the repair
    completion is called with the trimmed reply. *)
Theorem single_brace_goes_to_repair (msgs : list Message) (st : State W)
  (raw : str) (w : W) :
  chat (primary_request msgs) (world st) = (Ret raw, w) ->
  json_loads (strip raw) = None ->
  startswith (strip raw) "{" = true ->
  count (strip raw) (chr "{") <= 1 ->
  chat_calls (snd (llm_json msgs st)) =
    chat_calls st ++ [primary_request msgs; repair_request (strip raw)].
Proof.
  intros H Hj Hs Hc. rewrite (llm_json_unfold _ _ _ _ H). cbv zeta.
  rewrite Hj, Hs. simpl.
  assert (Hf : first_object (strip raw) = None).
  { unfold first_object. apply Z.ltb_ge in Hc. now rewrite Hc. }
  rewrite Hf.
  destruct (chat (repair_request (strip raw)) w) as [[fixed|e] w2];
    simpl; now rewrite <- app_assoc.
Qed.

End ParserCalls.

Lemma llm_json_chat_calls_witness :
  chat_calls (snd (@llm_json python_json _ scripted [system_message]
                     (start [Ret (py "{action")] [system_message])))
  = [primary_request [system_message]; repair_request "{action"].
Proof.
  apply (@llm_json_chat_calls python_json _ scripted [system_message]
           (start [Ret (py "{action")] [system_message]) "{action" [] eq_refl).
Defined.

Lemma single_brace_goes_to_repair_witness :
  let reply := quoted "{'action':'final','answer':'A'} Hope this helps" in
  chat_calls (snd (@llm_json python_json _ scripted [system_message]
                     (start [Ret reply] [system_message])))
  = [primary_request [system_message]; repair_request reply].
Proof.
  cbv zeta.
  apply (@single_brace_goes_to_repair python_json _ scripted [system_message]
           (start [Ret (quoted "{'action':'final','answer':'A'} Hope this helps")]
              [system_message])
           (quoted "{'action':'final','answer':'A'} Hope this helps") []).
  - reflexivity.
  - vm_compute; reflexivity.
  - vm_compute; reflexivity.
  - vm_compute; discriminate.
Defined.

(** *** The brace scan *)

(** Opening braces minus closing braces. *)
Lemma count_app (a b : str) (c : char) : count (a ++ b) c = count a c + count b c.
Proof. induction a as [|x a IH]; simpl; [reflexivity|]. rewrite IH. lia. Qed.

Lemma count_snoc (s : str) (c x : char) :
  count (s ++ [c]) x = count s x + (if (c =? x)%N then 1 else 0).
Proof. rewrite count_app. simpl. lia. Qed.

Lemma slice_snoc (txt : str) (a i : nat) (c : char) :
  (a <= i)%nat -> char_at txt i = Some c ->
  slice txt a (i + 1) = slice txt a i ++ [c].
Proof.
  intros Hai Hc. unfold slice, char_at in *.
  replace (i + 1 - a)%nat with (S (i - a)) by lia.
  assert (Hn : nth_error (skipn a txt) (i - a) = Some c).
  { rewrite nth_error_skipn. now replace (a + (i - a))%nat with i by lia. }
  revert Hn. generalize (skipn a txt) as l. generalize (i - a)%nat as n.
  induction n as [|n IH]; intros [|x l] Hn; simpl in *; try discriminate.
  - now injection Hn as ->.
  - f_equal. now apply IH.
Qed.

Lemma slice_self (txt : str) (a : nat) : slice txt a a = [].
Proof. unfold slice. now rewrite Nat.sub_diag. Qed.

Lemma slice_prefix (txt : str) (a k j : nat) :
  (a <= k <= j)%nat -> slice txt a k = firstn (k - a) (slice txt a j).
Proof.
  intros H. unfold slice. rewrite firstn_firstn.
  now replace (Nat.min (k - a) (j - a)) with (k - a)%nat by lia.
Qed.

Lemma find_from_spec (s : str) (c : char) (i : nat) :
  0 < count s c ->
  exists k : nat,
    find_from s c i = Z.of_nat (i + k) /\ nth_error s k = Some c /\
    count (firstn k s) c = 0.
Proof.
  revert i. induction s as [|x s IH]; intros i Hc; simpl in *; [lia|].
  destruct (x =? c)%N eqn:E.
  - apply N.eqb_eq in E. subst x. exists 0%nat.
    rewrite Nat.add_0_r. now repeat split.
  - destruct (IH (S i)) as (k & Hf & Hn & Hz); [lia|].
    exists (S k). rewrite Hf. simpl. rewrite E.
    repeat split; auto. f_equal. lia.
Qed.

Section BraceScan.

Context {D : JsonDecoder}.

(** While the scan runs from [start], where the text has an opening brace,
    the count it holds is the balance of the text read so far, and that
    balance has been positive since the first character. *)
Lemma scan_braces_invariant (txt : str) (start : nat) :
  char_at txt start = Some (chr "{") ->
  forall (n i : nat) (span : str),
    (start <= i)%nat -> (i + n = List.length txt)%nat ->
    (forall k, (start < k <= i)%nat ->
       count (slice txt start k) (chr "}") < count (slice txt start k) (chr "{")) ->
    scan_braces txt start (seq i n)
      (count (slice txt start i) (chr "{") - count (slice txt start i) (chr "}"))
      = Some span ->
    exists j : nat,
      (i <= j < List.length txt)%nat /\ span = slice txt start (j + 1) /\
      count span (chr "{") = count span (chr "}") /\
      (forall k, (start < k <= j)%nat ->
         count (slice txt start k) (chr "}") < count (slice txt start k) (chr "{")).
Proof.
  intros Hstart.
  assert (Eoc : (chr "{" =? chr "}")%N = false) by reflexivity.
  assert (Eco : (chr "}" =? chr "{")%N = false) by reflexivity.
  induction n as [|n IH]; intros i span Hi Hlen Hpos Hscan.
  - discriminate.
  - cbn [scan_braces seq] in Hscan.
    destruct (char_at txt i) as [c|] eqn:Hc; [|discriminate].
    pose proof (slice_snoc txt start i c Hi Hc) as Hsnoc.
    assert (Hbal0 : i = start \/
              count (slice txt start i) (chr "}")
              < count (slice txt start i) (chr "{")).
    { destruct (Nat.eq_dec i start) as [->|Hne]; [now left|].
      right. apply Hpos. lia. }
    assert (Hnext : forall (bc : Z),
              bc = count (slice txt start (i + 1)) (chr "{")
                   - count (slice txt start (i + 1)) (chr "}") ->
              0 < bc ->
              scan_braces txt start (seq (S i) n) bc = Some span ->
              exists j : nat,
                (i <= j < List.length txt)%nat /\ span = slice txt start (j + 1) /\
                count span (chr "{") = count span (chr "}") /\
                (forall k, (start < k <= j)%nat ->
                   count (slice txt start k) (chr "}")
                   < count (slice txt start k) (chr "{"))).
    { intros bc -> Hbc Hs.
      replace (S i) with (i + 1)%nat in Hs by lia.
      destruct (IH (i + 1)%nat span) as (j & Hj & Hrest); try lia; auto.
      - intros k Hk. destruct (Nat.eq_dec k (i + 1)) as [->|Hne]; [lia|].
        apply Hpos. lia.
      - exists j. split; [lia|exact Hrest]. }
    destruct (c =? chr "{")%N eqn:Eo.
    + apply N.eqb_eq in Eo. subst c.
      apply Hnext in Hscan; auto.
      * rewrite Hsnoc, !count_snoc, ?N.eqb_refl, ?Eoc, ?Eco. lia.
      * destruct Hbal0 as [->|Hb]; [rewrite slice_self; cbn [count]; lia|lia].
    + destruct (c =? chr "}")%N eqn:Ec.
      * apply N.eqb_eq in Ec. subst c.
        assert (Hne : i <> start).
        { intros ->. rewrite Hstart in Hc. discriminate. }
        destruct Hbal0 as [->|Hb]; [contradiction|].
        cbv zeta in Hscan.
        destruct (count (slice txt start i) (chr "{")
                  - count (slice txt start i) (chr "}") - 1 =? 0) eqn:Ez.
        -- apply Z.eqb_eq in Ez. injection Hscan as <-.
           exists i. split.
           { split; [lia|]. apply nth_error_Some. unfold char_at in Hc.
             rewrite Hc. discriminate. }
           split; [reflexivity|]. split.
           { rewrite Hsnoc, !count_snoc, ?N.eqb_refl, ?Eoc, ?Eco. lia. }
           intros k Hk. apply Hpos. lia.
        -- apply Z.eqb_neq in Ez. apply Hnext in Hscan; auto.
           ++ rewrite Hsnoc, !count_snoc, ?N.eqb_refl, ?Eoc, ?Eco. lia.
           ++ lia.
      * assert (Hne : i <> start).
        { intros ->. rewrite Hstart in Hc. injection Hc as <-.
          discriminate. }
        destruct Hbal0 as [->|Hb]; [contradiction|].
        apply Hnext in Hscan; auto.
        -- rewrite Hsnoc, !count_snoc, Eo, Ec. lia.
        -- lia.
Qed.

(** What the first-object extraction decodes: when [first_object] returns
    a value, the text splits as [pre ++ span ++ post] where [pre] holds no
    opening brace, [span] is what was decoded, [span] has as many closing
    as opening braces, and every shorter nonempty prefix of [span] has
    more opening than closing ones: the span is the shortest balanced
    one from the first brace (quotes are not looked at). *)
Theorem first_object_span (txt : str) (v : JSON) :
  first_object txt = Some v ->
  exists pre span post : str,
    txt = pre ++ span ++ post /\
    count pre (chr "{") = 0 /\
    json_loads span = Some v /\
    count span (chr "{") = count span (chr "}") /\
    (forall m : nat, (0 < m < List.length span)%nat ->
       count (firstn m span) (chr "}") < count (firstn m span) (chr "{")).
Proof.
  unfold first_object.
  destruct (1 <? count txt (chr "{")) eqn:Hcount; [|discriminate].
  apply Z.ltb_lt in Hcount.
  destruct (find_from_spec txt (chr "{") 0) as (start & Hfind & Hnth & Hpre);
    [lia|].
  unfold find. rewrite Hfind. simpl Nat.add. rewrite Nat2Z.id.
  destruct (scan_braces txt start (seq start (List.length txt - start)) 0)
    as [span|] eqn:Hscan; [|discriminate].
  intros Hload.
  assert (Hlt : (start < List.length txt)%nat).
  { apply nth_error_Some. rewrite Hnth. discriminate. }
  replace 0 with (count (slice txt start start) (chr "{")
                  - count (slice txt start start) (chr "}")) in Hscan
    by (rewrite slice_self; reflexivity).
  destruct (scan_braces_invariant txt start Hnth
              (List.length txt - start) start span)
    as (j & Hj & Hspan & Hbal & Hpos);
    [lia | lia | intros; lia | exact Hscan |].
  exists (firstn start txt), span, (skipn (j + 1) txt).
  assert (Hlen : List.length span = (j + 1 - start)%nat).
  { rewrite Hspan. unfold slice. rewrite length_firstn, length_skipn. lia. }
  repeat split; auto.
  - rewrite Hspan. unfold slice.
    replace (skipn (j + 1) txt) with (skipn (j + 1 - start) (skipn start txt)).
    + now rewrite firstn_skipn, firstn_skipn.
    + rewrite skipn_skipn. f_equal. lia.
  - intros m Hm. rewrite Hspan.
    replace (firstn m (slice txt start (j + 1)))
      with (slice txt start (start + m)).
    + apply Hpos. lia.
    + rewrite (slice_prefix txt start (start + m) (j + 1)) by lia.
      f_equal. lia.
Qed.

End BraceScan.

Lemma first_object_span_witness :
  exists pre span post : str,
    quoted "Sure: {'action':'final','answer':'A'} and {'x':1}"
      = pre ++ span ++ post /\
    Decoder.loads span = Some (final_answer "A").
Proof.
  destruct (@first_object_span python_json
              (quoted "Sure: {'action':'final','answer':'A'} and {'x':1}")
              (final_answer "A"))
    as (pre & span & post & Hsplit & _ & Hload & _).
  - vm_compute; reflexivity.
  - exists pre, span, post. split; [exact Hsplit|exact Hload].
Defined.

(** ** The iteration: tool calls and decisions of other shapes *)

Section Dispatch.

Context {D : JsonDecoder} {W : Type} {C : Completer W} {T : ToolProvider W}
        {R : PyRepr}.

(** The iteration once the decision is a call of an indexed tool: what is
    left is the [try] block around the call. *)
Lemma iteration_dispatch (tool_index : dict Tool) (i : nat) (st st1 : State W)
  (d : dict JSON) (tname : str) :
  llm_json (history st) st = (Ret (JObject d), st1) ->
  dict_get d "action" = Some (JString tname) ->
  tname <> py "final" ->
  dict_mem tool_index tname = true ->
  let args := match dict_get d "args" with Some v => v | None => JObject [] end in
  iteration_body tool_index i st =
    match call_tool tname args (world st1) with
    | (r, w2) =>
        let called := tool_calls st ++ [(tname, args)] in
        match match r with Ret result => payload_of result | Raise e => Raise e end with
        | Ret payload =>
            (Ret Next,
             Build_State w2
               (history st ++
                  [message "assistant"
                     (JString ("[tool:" ++ tname ++ "] " ++ payload))])
               (stdout st) (chat_calls st1) called)
        | Raise e =>
            (Ret Next,
             Build_State w2
               (history st ++
                  [message "assistant"
                     (JString ("[error] Tool call failed: " ++ exn_str e))])
               (stdout st ++ [Print ("[ERROR] Tool call failed: " ++ exn_str e)])
               (chat_calls st1) called)
        end
    end.
Proof.
  intros Hrun Ha Hne Hmem args.
  apply str_eqb_neq in Hne.
  destruct (llm_json_frame _ _ _ _ Hrun) as (Hh & Ho & Ht).
  unfold iteration_body, bind, get_history, try_except. rewrite Hrun.
  unfold py_get, ret. rewrite Ha. simpl. rewrite Hne. simpl. rewrite Hmem. simpl.
  unfold do_call_tool. simpl. fold args.
  destruct (call_tool tname args (world st1)) as [[result|e] w2].
  - unfold lift_res. destruct (payload_of result) as [payload|e]; simpl;
      now rewrite Hh, Ho, Ht.
  - simpl. now rewrite Hh, Ho, Ht.
Qed.

(** A call of an indexed tool that returns: the tool is called with the
    decision's [args] (an empty dict when there is none), and the text of
    the first content block (or the JSON dump of the result when it has
    no content) is appended as [[tool:NAME] TEXT]; nothing is printed and
    the loop goes on. *)
Theorem tool_call_result_appended (tool_index : dict Tool) (i : nat)
  (st st1 : State W) (d : dict JSON) (tname payload : str)
  (result : CallToolResult) (w2 : W) :
  llm_json (history st) st = (Ret (JObject d), st1) ->
  dict_get d "action" = Some (JString tname) ->
  tname <> py "final" ->
  dict_mem tool_index tname = true ->
  let args := match dict_get d "args" with Some v => v | None => JObject [] end in
  call_tool tname args (world st1) = (Ret result, w2) ->
  payload_of result = Ret payload ->
  iteration_body tool_index i st =
    (Ret Next,
     Build_State w2
       (history st ++
          [message "assistant" (JString ("[tool:" ++ tname ++ "] " ++ payload))])
       (stdout st) (chat_calls st1) (tool_calls st ++ [(tname, args)])).
Proof.
  intros Hrun Ha Hne Hmem args Hcall Hp.
  rewrite (iteration_dispatch tool_index i _ _ _ _ Hrun Ha Hne Hmem).
  fold args. rewrite Hcall, Hp. reflexivity.
Qed.

(** A call of an indexed tool that fails, because the call raises or
    because the first content block of its result has no text: the error
    is printed, [[error] Tool call failed: ...] is appended, and the loop
    goes on; the exception does not leave the iteration. *)
Theorem tool_call_failure_recorded (tool_index : dict Tool) (i : nat)
  (st st1 : State W) (d : dict JSON) (tname : str) (e : Exn) (w2 : W) :
  llm_json (history st) st = (Ret (JObject d), st1) ->
  dict_get d "action" = Some (JString tname) ->
  tname <> py "final" ->
  dict_mem tool_index tname = true ->
  let args := match dict_get d "args" with Some v => v | None => JObject [] end in
  (call_tool tname args (world st1) = (Raise e, w2) \/
   exists result, call_tool tname args (world st1) = (Ret result, w2) /\
                  payload_of result = Raise e) ->
  iteration_body tool_index i st =
    (Ret Next,
     Build_State w2
       (history st ++
          [message "assistant"
             (JString ("[error] Tool call failed: " ++ exn_str e))])
       (stdout st ++ [Print ("[ERROR] Tool call failed: " ++ exn_str e)])
       (chat_calls st1) (tool_calls st ++ [(tname, args)])).
Proof.
  intros Hrun Ha Hne Hmem args Hcall.
  rewrite (iteration_dispatch tool_index i _ _ _ _ Hrun Ha Hne Hmem).
  fold args. destruct Hcall as [Hcall|(result & Hcall & Hp)].
  - rewrite Hcall. reflexivity.
  - rewrite Hcall, Hp. reflexivity.
Qed.

(** A decision that is not a JSON object (a number, a string, a list,
    ...) makes [decision.get] raise outside every [try]: the exception
    leaves the iteration and the loop, no later iteration runs, and
    nothing was printed or appended for it. *)
Theorem non_object_decision_raises (tool_index : dict Tool) (i : nat)
  (rest : list nat) (st st1 : State W) (v : JSON) :
  llm_json (history st) st = (Ret v, st1) ->
  (forall d, v <> JObject d) ->
  for_in (i :: rest) (iteration_body tool_index) st =
    (Raise (AttributeError (type_name v) "get"), st1) /\
  history st1 = history st /\ stdout st1 = stdout st.
Proof.
  intros Hrun Hv.
  destruct (llm_json_frame _ _ _ _ Hrun) as (Hh & Ho & _).
  split; [|now split].
  simpl. unfold bind at 1.
  unfold iteration_body, bind, get_history, try_except. rewrite Hrun.
  destruct v; try reflexivity. now destruct (Hv members).
Qed.

(** A decision whose action is a list or a dict cannot be looked up in the
    index: the membership test raises, outside every [try], and the
    exception leaves the iteration and the loop with nothing printed or
    appended. *)
Theorem unhashable_action_raises (tool_index : dict Tool) (i : nat)
  (rest : list nat) (st st1 : State W) (d : dict JSON) (a : JSON) :
  llm_json (history st) st = (Ret (JObject d), st1) ->
  dict_get d "action" = Some a ->
  (exists items, a = JArray items) \/ (exists members, a = JObject members) ->
  for_in (i :: rest) (iteration_body tool_index) st =
    (Raise (UnhashableType (type_name a)), st1) /\
  history st1 = history st /\ stdout st1 = stdout st.
Proof.
  intros Hrun Ha Hshape.
  destruct (llm_json_frame _ _ _ _ Hrun) as (Hh & Ho & _).
  split; [|now split].
  simpl. unfold bind at 1.
  unfold iteration_body, bind, get_history, try_except. rewrite Hrun.
  unfold py_get, ret. rewrite Ha.
  destruct Hshape as [(items & ->)|(members & ->)]; reflexivity.
Qed.

(** A decision object without an action, or whose action is null, is
    treated as a call of the unknown tool [None]: the message
    [(unknown tool None)] is appended and the loop goes on. *)
Theorem missing_action_is_unknown_tool (tool_index : dict Tool) (i : nat)
  (st st1 : State W) (d : dict JSON) :
  llm_json (history st) st = (Ret (JObject d), st1) ->
  dict_get d "action" = None \/ dict_get d "action" = Some JNull ->
  iteration_body tool_index i st =
    (Ret Next,
     Build_State (world st1)
       (history st ++ [message "assistant" (JString "(unknown tool None)")])
       (stdout st ++ [Print "[ERROR] Unknown tool: None"])
       (chat_calls st1) (tool_calls st)).
Proof.
  intros Hrun Ha.
  destruct (llm_json_frame _ _ _ _ Hrun) as (Hh & Ho & Ht).
  unfold iteration_body, bind, get_history, try_except. rewrite Hrun.
  unfold py_get, ret.
  destruct Ha as [Ha|Ha]; rewrite Ha; simpl; now rewrite Hh, Ho, Ht.
Qed.

(** A decision whose action is final ends the turn with its answer,
    whatever JSON value the answer is (it is stored as it is, not turned
    into text) and whatever the index holds: no tool is called, so a tool
    named final can never be reached.  That is when [print] can write the
    answer; when the answer is a string with a lone surrogate, [print]
    raises once [Agent:] is out, outside every [try]: the answer is not
    stored and the exception leaves the loop. *)
Theorem final_answer_stored_as_is (tool_index : dict Tool) (i : nat)
  (rest : list nat) (st st1 : State W) (d : dict JSON) (answer : JSON) :
  llm_json (history st) st = (Ret (JObject d), st1) ->
  dict_get d "action" = Some (JString "final") ->
  dict_get d "answer" = Some answer ->
  (printable answer = true ->
   for_in (i :: rest) (iteration_body tool_index) st =
     (Ret tt,
      Build_State (world st1) (history st ++ [message "assistant" answer])
        (stdout st ++ [PrintAgent answer]) (chat_calls st1) (tool_calls st))) /\
  (forall s : str,
     answer = JString s -> encodable s = false ->
     for_in (i :: rest) (iteration_body tool_index) st =
       (Raise (UnicodeEncodeError s),
        Build_State (world st1) (history st) (stdout st ++ [PrintAgentCut])
          (chat_calls st1) (tool_calls st))).
Proof.
  intros Hrun Ha Hx.
  destruct (llm_json_frame _ _ _ _ Hrun) as (Hh & Ho & Ht).
  split.
  - intros Hp. simpl. unfold bind at 1.
    rewrite (iteration_final tool_index i _ _ _ Hrun Ha).
    + rewrite Hx. now rewrite Hh, Ho, Ht.
    + now rewrite Hx.
  - intros s -> Hp. simpl. unfold bind at 1.
    rewrite (iteration_final_unprintable tool_index i _ _ _ _ Hrun Ha Hx Hp).
    now rewrite Hh, Ho, Ht.
Qed.

End Dispatch.

(** ** What the backend is sent *)

Section Requests.

Context {D : JsonDecoder} {W : Type} {C : Completer W} {T : ToolProvider W}
        {R : PyRepr}.

(** The only completion calls of an iteration are those of its
    [llm_json]. *)
Lemma iteration_chat_calls (tool_index : dict Tool) (i : nat) (st : State W) :
  chat_calls (snd (iteration_body tool_index i st)) =
  chat_calls (snd (llm_json (history st) st)).
Proof.
  unfold iteration_body, bind, get_history, try_except.
  destruct (llm_json (history st) st) as [[v|e] st1]; [|reflexivity].
  destruct v; try reflexivity.
  unfold py_get, ret.
  destruct (match dict_get members "action" with
            | Some v => v
            | None => JNull
            end) as [ | b | z | t | s | items | members' ]; try reflexivity.
  1-3: cbn [py_eq_str hashed key_in negb ret];
    match goal with
    | |- context [print_line ?l ?x] =>
        destruct (print_line l x) as [[[]|e] st2] eqn:E;
        apply print_line_frame in E; simpl; tauto
    end.
  cbn [py_eq_str hashed ret]. destruct (str_eqb s "final").
  { match goal with
    | |- context [print_agent ?a ?x] =>
        destruct (print_agent a x) as [[[]|e] st2] eqn:E;
        apply print_agent_frame in E; simpl; tauto
    end. }
  cbn [key_in key_str]. destruct (negb (dict_mem tool_index s)).
  { match goal with
    | |- context [print_line ?l ?x] =>
        destruct (print_line l x) as [[[]|e] st2] eqn:E;
        apply print_line_frame in E; simpl; tauto
    end. }
  unfold do_call_tool. simpl.
  destruct (call_tool s _ (world st1)) as [[result|e] w2]; simpl.
  - unfold lift_res. destruct (payload_of result); reflexivity.
  - reflexivity.
Qed.

(** Every iteration first sends the backend the whole history as it is at
    that moment (with the results of the earlier iterations).  The only
    other request it can send is the repair request, which holds the
    repair instruction and the trimmed reply to the first request, not
    the history; it is sent exactly when that reply does not decode,
    begins with a brace or contains the word action, and no first object
    could be extracted from it. *)
Theorem iteration_sends_whole_history (tool_index : dict Tool) (i : nat)
  (st : State W) (r : Res str) (w : W) :
  chat (primary_request (history st)) (world st) = (r, w) ->
  chat_calls (snd (iteration_body tool_index i st)) =
    chat_calls st ++
      primary_request (history st) ::
      match r with
      | Raise _ => []
      | Ret raw =>
          let txt := strip raw in
          match json_loads txt, first_object txt with
          | None, None =>
              if startswith txt "{" || contains "action" txt
              then [repair_request txt]
              else []
          | _, _ => []
          end
      end.
Proof.
  intros E. rewrite iteration_chat_calls.
  destruct r as [raw|e].
  - rewrite (llm_json_unfold _ _ _ _ E). cbv zeta.
    destruct (json_loads (strip raw)); [reflexivity|].
    destruct (startswith (strip raw) "{"), (contains "action" (strip raw));
      simpl;
      destruct (first_object (strip raw)); try reflexivity;
      destruct (chat (repair_request (strip raw)) w) as [[fixed|e] w2];
      simpl; now rewrite <- app_assoc.
  - unfold llm_json, bind, do_chat. now rewrite E.
Qed.

End Requests.

(** ** Bounds on what a turn does *)

Lemma adds_refl {X} (l : list X) (hi : nat) (P : X -> Prop) : adds l l 0 hi P.
Proof. exists []. rewrite app_nil_r. repeat split; simpl; auto; lia. Qed.

Lemma adds_one {X} (l : list X) (x : X) (lo hi : nat) (P : X -> Prop) :
  (lo <= 1 <= hi)%nat -> P x -> adds l (l ++ [x]) lo hi P.
Proof. intros H Hx. exists [x]. repeat split; simpl; auto; lia. Qed.

Lemma adds_trans {X} (a b c : list X) (lo1 hi1 lo2 hi2 : nat) (P : X -> Prop) :
  adds a b lo1 hi1 P -> adds b c lo2 hi2 P ->
  adds a c (lo1 + lo2) (hi1 + hi2) P.
Proof.
  intros (l1 & -> & H1 & F1) (l2 & -> & H2 & F2). exists (l1 ++ l2).
  rewrite app_assoc, length_app. repeat split; try lia.
  apply Forall_app. now split.
Qed.

Lemma adds_weaken {X} (a b : list X) (lo hi lo' hi' : nat) (P : X -> Prop) :
  adds a b lo hi P -> (lo' <= lo)%nat -> (hi <= hi')%nat -> adds a b lo' hi' P.
Proof. intros (l & -> & H & F) Hlo Hhi. exists l. repeat split; auto; lia. Qed.

Ltac effects_leaf Hh Ht :=
  simpl; rewrite ?Hh, ?Ht; repeat split;
  first [ assumption
        | apply adds_refl
        | apply adds_one; [lia | first [reflexivity | exact I]] ].

Ltac effects_print Hh Ht :=
  let E := fresh "E" in
  let Eh := fresh "Eh" in
  let Ec := fresh "Ec" in
  let Et := fresh "Et" in
  match goal with
  | |- context [print_line ?l ?x] =>
      destruct (print_line l x) as [[[]|?] ?] eqn:E;
      apply print_line_frame in E
  | |- context [print_agent ?a ?x] =>
      destruct (print_agent a x) as [[[]|?] ?] eqn:E;
      apply print_agent_frame in E
  end;
  destruct E as (_ & Eh & Ec & Et);
  simpl; rewrite ?Eh, ?Ec, ?Et; effects_leaf Hh Ht.

Section Bounds.

Context {D : JsonDecoder} {W : Type} {C : Completer W} {T : ToolProvider W}
        {R : PyRepr}.

(** What [llm_json] does to the state: one or two completion calls, and
    nothing else. *)
Lemma llm_json_effects (msgs : list Message) (st : State W) :
  let st1 := snd (llm_json msgs st) in
  history st1 = history st /\ stdout st1 = stdout st /\
  tool_calls st1 = tool_calls st /\
  adds (chat_calls st) (chat_calls st1) 1 2 (fun _ => True).
Proof.
  cbv zeta. destruct (llm_json msgs st) as [r st1] eqn:E.
  destruct (llm_json_frame _ _ _ _ E) as (Hh & Ho & Ht).
  repeat split; auto. simpl.
  revert E. unfold llm_json, bind, do_chat.
  destruct (chat (primary_request msgs) (world st)) as [[raw|e] w].
  - destruct (json_loads (strip raw)) as [v|].
    { intros [= <- <-]. simpl. apply adds_one; [lia|exact I]. }
    destruct (negb _ && negb _).
    { intros [= <- <-]. simpl. apply adds_one; [lia|exact I]. }
    destruct (first_object (strip raw)) as [v|].
    { intros [= <- <-]. simpl. apply adds_one; [lia|exact I]. }
    unfold try_except, do_chat; simpl.
    assert (Htwo : forall (a b : ChatRequest),
              adds (chat_calls st) ((chat_calls st ++ [a]) ++ [b]) 1 2
                (fun _ => True)).
    { intros a b. exists [a; b]. rewrite <- app_assoc.
      repeat split; simpl; auto. }
    destruct (chat (repair_request (strip raw)) w) as [[fixed|e] w2]; simpl.
    + destruct (json_loads (strip fixed)); intros [= <- <-]; simpl; apply Htwo.
    + intros [= <- <-]. simpl. apply Htwo.
  - intros [= <- <-]. simpl. apply adds_one; [lia|exact I].
Qed.

(** What one iteration does to the state, whatever the backend and the
    tools answer and whether it returns or raises: at most one message
    appended, an assistant message; one or two completion calls; at most
    one tool call. *)
Lemma iteration_effects (tool_index : dict Tool) (i : nat) (st : State W) :
  let st' := snd (iteration_body tool_index i st) in
  adds (history st) (history st') 0 1 is_assistant /\
  adds (chat_calls st) (chat_calls st') 1 2 (fun _ => True) /\
  adds (tool_calls st) (tool_calls st') 0 1 (fun _ => True).
Proof.
  cbv zeta.
  pose proof (llm_json_effects (history st) st) as Heff. cbv zeta in Heff.
  unfold iteration_body, bind, get_history, try_except.
  destruct (llm_json (history st) st) as [[v|e] st1]; simpl in Heff;
    destruct Heff as (Hh & Ho & Ht & Hc).
  2:{ effects_leaf Hh Ht. }
  destruct v; try solve [effects_leaf Hh Ht].
  unfold py_get, ret.
  destruct (match dict_get members "action" with
            | Some v => v
            | None => JNull
            end) as [ | b | z | t | s | items | members' ] eqn:Ea;
    try solve [effects_leaf Hh Ht];
    try solve [cbn [py_eq_str hashed key_in negb ret]; effects_print Hh Ht].
  cbn [py_eq_str hashed ret]. destruct (str_eqb s "final");
    [effects_print Hh Ht|].
  cbn [key_in key_str]. destruct (negb (dict_mem tool_index s));
    [effects_print Hh Ht|].
  unfold do_call_tool. simpl.
  destruct (call_tool s _ (world st1)) as [[result|e] w2]; simpl.
  - unfold lift_res.
    destruct (payload_of result) as [payload|e]; effects_leaf Hh Ht.
  - effects_leaf Hh Ht.
Qed.

Lemma for_in_effects (tool_index : dict Tool) (xs : list nat) (st : State W) :
  let st' := snd (for_in xs (iteration_body tool_index) st) in
  adds (history st) (history st') 0 (List.length xs) is_assistant /\
  adds (chat_calls st) (chat_calls st') (match xs with [] => 0 | _ :: _ => 1 end)
    (2 * List.length xs) (fun _ => True) /\
  adds (tool_calls st) (tool_calls st') 0 (List.length xs) (fun _ => True).
Proof.
  revert st. induction xs as [|i xs IH]; intros st; cbv zeta.
  - cbn [for_in ret snd]. repeat split; apply adds_refl.
  - pose proof (iteration_effects tool_index i st) as Hit. cbv zeta in Hit.
    cbn [for_in]. unfold bind.
    destruct (iteration_body tool_index i st) as [[[|]|e] st1];
      cbn [snd] in Hit; destruct Hit as (H1 & H2 & H3); cbv beta iota.
    + specialize (IH st1). cbv zeta in IH. destruct IH as (I1 & I2 & I3).
      cbn [List.length]. repeat split.
      * eapply adds_weaken; [eapply adds_trans; [exact H1|exact I1]|lia|lia].
      * eapply adds_weaken; [eapply adds_trans; [exact H2|exact I2]|lia|lia].
      * eapply adds_weaken; [eapply adds_trans; [exact H3|exact I3]|lia|lia].
    + cbn [ret snd List.length].
      repeat split; eapply adds_weaken; eauto; lia.
    + cbn [snd List.length].
      repeat split; eapply adds_weaken; eauto; lia.
Qed.

(** What a turn appends: the user message, then assistant messages. *)
Lemma turn_effects (tool_index : dict Tool) (user : str) (st : State W) :
  let st' := snd (turn tool_index user st) in
  (exists msgs : list Message,
     history st' = history st ++ message "user" (JString user) :: msgs /\
     (List.length msgs <= 6)%nat /\ Forall is_assistant msgs) /\
  adds (chat_calls st) (chat_calls st') 1 12 (fun _ => True) /\
  adds (tool_calls st) (tool_calls st') 0 6 (fun _ => True).
Proof.
  cbv zeta. unfold turn, bind, append.
  set (st0 := Build_State (world st)
                (history st ++ [message "user" (JString user)]) (stdout st)
                (chat_calls st) (tool_calls st)).
  pose proof (for_in_effects tool_index (seq 0 6) st0) as (H1 & H2 & H3).
  destruct H1 as (msgs & Hm & Hl & Hf).
  repeat split.
  - exists msgs. rewrite Hm. simpl. rewrite <- app_assoc.
    repeat split; auto. simpl in Hl. lia.
  - exact H2.
  - exact H3.
Qed.

(** Whatever the backend and the tools answer, and whether the turn
    returns or raises, a turn appends the user message followed by at
    most six assistant messages, makes between one and twelve completion
    calls and at most six tool calls. *)
Theorem turn_bounds (tool_index : dict Tool) (user : str) (st : State W) :
  let st' := snd (turn tool_index user st) in
  (exists msgs : list Message,
     history st' = history st ++ message "user" (JString user) :: msgs /\
     (List.length msgs <= 6)%nat /\ Forall is_assistant msgs) /\
  (exists reqs : list ChatRequest,
     chat_calls st' = chat_calls st ++ reqs /\
     (1 <= List.length reqs <= 12)%nat) /\
  (exists calls : list (str * JSON),
     tool_calls st' = tool_calls st ++ calls /\ (List.length calls <= 6)%nat).
Proof.
  cbv zeta. destruct (turn_effects tool_index user st) as (H1 & H2 & H3).
  split; [exact H1|]. split.
  - destruct H2 as (l & E & Hl & _). now exists l.
  - destruct H3 as (l & E & Hl & _). exists l. split; [exact E|lia].
Qed.

End Bounds.

(** ** The read-and-answer loop and the session *)

Lemma lstrip_all_space (s : str) :
  Forall (fun c => isspace c = true) s -> lstrip s = [].
Proof.
  induction 1 as [|c s Hc _ IH]; simpl; [reflexivity|]. now rewrite Hc.
Qed.

Lemma strip_all_space (s : str) :
  Forall (fun c => isspace c = true) s -> strip s = [].
Proof.
  intros H. unfold strip, rstrip. now rewrite (lstrip_all_space s H).
Qed.

Lemma filter_user_assistant (msgs : list Message) :
  Forall is_assistant msgs -> filter is_user msgs = [].
Proof.
  induction 1 as [|m msgs Hm _ IH]; simpl; [reflexivity|].
  unfold is_user at 1. unfold is_assistant in Hm. rewrite Hm. exact IH.
Qed.

Section Session.

Context {D : JsonDecoder} {W : Type} {C : Completer W} {T : ToolProvider W}
        {R : PyRepr}.

Lemma extends_repl (tool_index : dict Tool) (stdin : list str) :
  extends_history (repl tool_index stdin).
Proof.
  induction stdin as [|line rest IH]; simpl.
  - apply extends_bind; [apply extends_emit|]. intros _. apply extends_raise.
  - apply extends_bind; [apply extends_emit|]. intros _.
    destruct (is_quit (strip line)); [apply extends_ret|].
    apply extends_bind; [apply extends_turn|]. intros _. exact IH.
Qed.

(** A line that is empty or blank, or that reads exit or quit in any
    letter case once trimmed, ends the loop: only the prompt was written,
    no call is made, the history is as before, and the lines after it are
    not read. *)
Theorem repl_stops_at_quit (tool_index : dict Tool) (line : str)
  (rest : list str) (st : State W) :
  Forall (fun c => isspace c = true) line \/
  lower (strip line) = py "exit" \/ lower (strip line) = py "quit" ->
  repl tool_index (line :: rest) st = (Ret tt, prompted st).
Proof.
  intros H.
  assert (Hq : is_quit (strip line) = true).
  { destruct H as [H|[H|H]].
    - now rewrite (strip_all_space line H).
    - unfold is_quit. destruct (strip line); [reflexivity|]. now rewrite H.
    - unfold is_quit. destruct (strip line); [reflexivity|]. rewrite H.
      now rewrite orb_true_r. }
  cbn [repl]. unfold bind, emit. rewrite Hq. reflexivity.
Qed.

(** The user messages of the history follow the input: the loop appends
    one user message per line it answers, holding the trimmed line, in
    the order of the lines, and no other user message; the lines it
    answers are the first ones, none of which asks to quit. *)
Theorem repl_user_messages (tool_index : dict Tool) (stdin : list str)
  (st : State W) :
  exists k : nat,
    (k <= List.length stdin)%nat /\
    Forall (fun line => is_quit (strip line) = false) (firstn k stdin) /\
    filter is_user (history (snd (repl tool_index stdin st))) =
      filter is_user (history st) ++
      map (fun line => message "user" (JString (strip line))) (firstn k stdin).
Proof.
  revert st. induction stdin as [|line rest IH]; intros st.
  - exists 0%nat. cbn [repl]. unfold bind, emit, raise. simpl.
    rewrite app_nil_r. repeat split; auto.
  - cbn [repl]. unfold bind, emit. fold (prompted st).
    destruct (is_quit (strip line)) eqn:Hq.
    + exists 0%nat. simpl. rewrite app_nil_r. repeat split; auto. lia.
    + pose proof (turn_effects tool_index (strip line) (prompted st)) as Ht.
      cbv zeta in Ht. destruct Ht as ((msgs & Hh & _ & Hf) & _).
      assert (Hu : forall st1 : State W,
                history st1 = history st
                              ++ message "user" (JString (strip line)) :: msgs ->
                filter is_user (history st1) =
                  filter is_user (history st)
                  ++ [message "user" (JString (strip line))]).
      { intros st1 E. rewrite E, filter_app. simpl.
        now rewrite (filter_user_assistant msgs Hf). }
      destruct (turn tool_index (strip line) (prompted st)) as [[u|e] st1];
        cbn [snd] in Hh; change (history (prompted st)) with (history st) in Hh.
      * destruct (IH st1) as (k & Hk & Hall & Hfil).
        exists (S k). simpl. repeat split; [lia|now constructor|].
        rewrite Hfil, (Hu st1 Hh), <- app_assoc. reflexivity.
      * exists 1%nat. simpl. repeat split; [lia|now repeat constructor|].
        exact (Hu st1 Hh).
Qed.

(** Whatever happens in the loop, the session ends by closing its
    connections: [Closed] is the last thing written, the outcome (normal
    end or exception) is that of the loop, and the history still begins
    with the system message. *)
Theorem session_always_closes (tool_index : dict Tool)
  (system_with_tools : str) (stdin : list str) (st : State W) :
  let run := repl tool_index stdin (session_start st system_with_tools) in
  let r := session tool_index system_with_tools stdin st in
  fst r = fst run /\
  stdout (snd r) = stdout (snd run) ++ [Closed] /\
  exists suffix : list Message,
    history (snd r) = message "system" (JString system_with_tools) :: suffix.
Proof.
  cbv zeta. unfold session, bind, set_history, finally, emit.
  fold (session_start st system_with_tools).
  destruct (extends_repl tool_index stdin (session_start st system_with_tools))
    as [suffix Hs].
  destruct (repl tool_index stdin (session_start st system_with_tools))
    as [r st1]. simpl in *.
  repeat split. exists suffix. exact Hs.
Qed.

End Session.

(** ** The keys of the tool index *)

Lemma dict_get_keys {V} (d : dict V) (k : str) :
  dict_mem d k = true <-> In k (dict_keys d).
Proof.
  unfold dict_mem, dict_keys.
  induction d as [|[k' v] d IH]; simpl; [split; [discriminate|tauto]|].
  destruct (str_eqb k' k) eqn:E.
  - apply str_eqb_eq in E. subst. split; auto.
  - apply str_eqb_neq in E. rewrite IH. split; [auto|].
    intros [H|H]; [contradiction|exact H].
Qed.

Lemma dict_keys_set {V} (d : dict V) (k : str) (v : V) :
  dict_keys (dict_set d k v) =
  if dict_mem d k then dict_keys d else dict_keys d ++ [k].
Proof.
  unfold dict_mem, dict_keys.
  induction d as [|[k' v'] d IH]; simpl; [reflexivity|].
  destruct (str_eqb k' k) eqn:E; simpl; [reflexivity|].
  rewrite IH. now destruct (dict_get d k).
Qed.

Lemma tool_index_keys_fold (tools : list Tool) (d0 : dict Tool) :
  let d := fold_left (fun d kv => dict_set d (fst kv) (snd kv))
             (map (fun t => (name t, t)) tools) d0 in
  (NoDup (dict_keys d0) -> NoDup (dict_keys d)) /\
  (forall n, In n (dict_keys d) <-> In n (dict_keys d0) \/ In n (map name tools)) /\
  (List.length d <= List.length d0 + List.length tools)%nat.
Proof.
  cbv zeta. revert d0. induction tools as [|t tools IH]; intros d0; simpl.
  - repeat split; auto; try tauto; lia.
  - destruct (IH (dict_set d0 (name t) t)) as (I1 & I2 & I3).
    pose proof (dict_keys_set d0 (name t) t) as Hk.
    pose proof (dict_get_keys d0 (name t)) as Hm.
    assert (Hlen : (List.length (dict_set d0 (name t) t) <= S (List.length d0))%nat).
    { clear. induction d0 as [|[k' v'] d0 IHd]; simpl; [lia|].
      destruct (str_eqb k' (name t)); simpl; lia. }
    repeat split.
    + intros Hnd. apply I1. rewrite Hk.
      destruct (dict_mem d0 (name t)) eqn:E; [exact Hnd|].
      apply NoDup_app; [exact Hnd|repeat constructor; auto|].
      intros x Hx [<-|[]]. apply Hm in Hx. congruence.
    + intros H. apply I2 in H. rewrite Hk in H.
      destruct (dict_mem d0 (name t)) eqn:E; [tauto|].
      rewrite in_app_iff in H. simpl in H. tauto.
    + intros H. apply I2. rewrite Hk.
      destruct (dict_mem d0 (name t)) eqn:E.
      * destruct H as [H|[<-|H]]; auto. left. now apply Hm.
      * rewrite in_app_iff. simpl. tauto.
    + lia.
Qed.

(** The index holds exactly one entry per distinct tool name: its keys
    are without repetition, they are the names listed, each entry is a
    listed descriptor stored under its own name, and there are no more
    entries than descriptors. *)
Theorem tool_index_keys (tools : list Tool) :
  NoDup (dict_keys (tool_index_of tools)) /\
  (forall n : str,
     In n (dict_keys (tool_index_of tools)) <-> In n (map name tools)) /\
  (forall (n : str) (t : Tool),
     dict_get (tool_index_of tools) n = Some t -> name t = n /\ In t tools) /\
  (List.length (tool_index_of tools) <= List.length tools)%nat.
Proof.
  destruct (tool_index_keys_fold tools []) as (H1 & H2 & H3).
  unfold tool_index_of, dict_of_pairs.
  split; [apply H1; constructor|]. split; [|split].
  - intros n. rewrite H2. simpl. tauto.
  - intros n t Hg. rewrite tool_index_fold in Hg.
    destruct (List.find _ (rev tools)) as [t'|] eqn:E; [|discriminate].
    injection Hg as <-. apply find_some in E as [Hin E].
    apply str_eqb_eq in E. split; [exact E|]. now apply in_rev.
  - exact H3.
Qed.

(** ** The tool descriptions *)

Section DescriptionFacts.

Context {R : PyRepr}.

Lemma param_lines_listed (items : list JSON) (properties : dict JSON)
  (params : list str) :
  Forall (fun p => exists info, snd p = JObject info) properties ->
  param_lines (JArray items) properties params
  = Ok (params ++ map (listed_line items) properties).
Proof.
  intros H. revert params.
  induction H as [|[p v] props (info & Hv) _ IH]; intros params; simpl.
  - now rewrite app_nil_r.
  - simpl in Hv. subst v. unfold param_line. simpl.
    rewrite IH, <- app_assoc. reflexivity.
Qed.

Lemma dict_get_mem {V} (d : dict V) (k : str) (v : V) :
  dict_get d k = Some v ->
  match d with [] => false | _ :: _ => true end && dict_mem d k = true.
Proof.
  intros H. unfold dict_mem. rewrite H. destruct d; [discriminate|reflexivity].
Qed.

(** A tool whose input schema has no properties (the key is missing, or
    its dict is empty) is described by its header line alone. *)
Theorem schema_without_parameters (t : Tool) (d : dict JSON) :
  inputSchema t = JObject d ->
  dict_get d "properties" = None \/ dict_get d "properties" = Some (JObject []) ->
  tool_schema t = Ok (schema_header t).
Proof.
  intros Hs Hp. unfold tool_schema, schema_members. rewrite Hs. cbv zeta.
  destruct Hp as [Hp|Hp].
  - unfold dict_mem. rewrite Hp. now rewrite andb_false_r.
  - rewrite (dict_get_mem d _ _ Hp), Hp. reflexivity.
Qed.

(** A tool whose properties are all described by objects, with a
    [required] that is a list (or missing: no parameter is required
    then), is described by its header followed by one line per property,
    in the order of the schema: the name, the type (or [any] when the
    property has none), and the marker [(required)] when the name is in
    the list, [(optional)] otherwise. *)
Theorem schema_lists_parameters (t : Tool) (d properties : dict JSON)
  (items : list JSON) :
  inputSchema t = JObject d ->
  dict_get d "properties" = Some (JObject properties) ->
  properties <> [] ->
  Forall (fun p => exists info, snd p = JObject info) properties ->
  dict_get d "required" = Some (JArray items) \/
  (dict_get d "required" = None /\ items = []) ->
  tool_schema t =
    Ok (schema_header t ++ nl ++ join nl (map (listed_line items) properties)).
Proof.
  intros Hs Hp Hne Hall Hreq. unfold tool_schema, schema_members.
  rewrite Hs. cbv zeta. rewrite (dict_get_mem d _ _ Hp), Hp.
  assert (Hr : match dict_get d "required" with
               | Some v => v
               | None => JArray []
               end = JArray items).
  { destruct Hreq as [->|[-> ->]]; reflexivity. }
  rewrite Hr, (param_lines_listed items properties [] Hall). simpl.
  destruct properties as [|p props]; [contradiction|reflexivity].
Qed.

Lemma param_lines_bad (required : JSON) (properties : dict JSON)
  (params : list str) (p : str) (v : JSON) :
  In (p, v) properties -> (forall info, v <> JObject info) ->
  exists e, param_lines required properties params = Err e.
Proof.
  intros Hin Hv. revert params.
  induction properties as [|[q u] props IH]; intros params; [destruct Hin|].
  simpl. destruct (param_line required q u) as [line|e] eqn:E.
  - destruct Hin as [[= -> ->]|Hin]; [|now apply IH].
    unfold param_line in E. destruct v; try discriminate.
    now destruct (Hv members).
  - now exists e.
Qed.

Lemma tool_schemas_from_fails (tools : list Tool) (acc : list str) (t : Tool)
  (e : SchemaError) :
  In t tools -> tool_schema t = Err e ->
  exists e', tool_schemas_from tools acc = Err e'.
Proof.
  intros Hin He. revert acc.
  induction tools as [|u tools IH]; intros acc; [destruct Hin|].
  simpl. destruct (tool_schema u) as [s|e'] eqn:E.
  - destruct Hin as [->|Hin]; [congruence|now apply IH].
  - now exists e'.
Qed.

(** A listed tool whose properties are not a dict, or one of whose
    properties is not described by an object, makes the description loop
    raise: no system prompt is built, whatever the other tools are. *)
Theorem malformed_schema_fails (SYSTEM : str) (tools : list Tool) (t : Tool)
  (d : dict JSON) :
  In t tools ->
  inputSchema t = JObject d ->
  (exists v, dict_get d "properties" = Some v /\
             forall properties, v <> JObject properties) \/
  (exists properties p v,
     dict_get d "properties" = Some (JObject properties) /\
     In (p, v) properties /\ forall info, v <> JObject info) ->
  exists e, system_with_tools SYSTEM tools = Err e.
Proof.
  intros Hin Hs Hbad.
  assert (Hfail : exists e, tool_schema t = Err e).
  { unfold tool_schema, schema_members. rewrite Hs. cbv zeta.
    destruct Hbad as [(v & Hp & Hv)|(props & p & v & Hp & Hpin & Hv)];
      rewrite (dict_get_mem d _ _ Hp), Hp.
    - destruct v; try (eexists; reflexivity). now destruct (Hv members).
    - destruct (param_lines_bad
                  (match dict_get d "required" with
                   | Some r => r
                   | None => JArray []
                   end) props [] p v Hpin Hv) as [e He].
      rewrite He. now exists e. }
  destruct Hfail as [e He].
  destruct (tool_schemas_from_fails tools [] t e Hin He) as [e' He'].
  exists e'. unfold system_with_tools, tool_desc. now rewrite He'.
Qed.

Lemma tool_schemas_from_all (tools : list Tool) (schemas acc : list str) :
  Forall2 (fun t s => tool_schema t = Ok s) tools schemas ->
  tool_schemas_from tools acc = Ok (acc ++ schemas).
Proof.
  intros H. revert acc.
  induction H as [|t s tools schemas Hts _ IH]; intros acc; simpl.
  - now rewrite app_nil_r.
  - rewrite Hts, IH, <- app_assoc. reflexivity.
Qed.

(** When every listed tool can be described, the system prompt is the
    instructions, the line [Available tools:] and the descriptions of all
    the listed descriptors, one after the other in the order of the
    listing: a descriptor that the index dropped because a later one has
    its name is described all the same. *)
Theorem system_prompt_describes_all (SYSTEM : str) (tools : list Tool)
  (schemas : list str) :
  Forall2 (fun t s => tool_schema t = Ok s) tools schemas ->
  system_with_tools SYSTEM tools =
    Ok (SYSTEM ++ nl ++ nl ++ "Available tools:" ++ nl ++ join nl schemas) /\
  List.length schemas = List.length tools /\
  (List.length (tool_index_of tools) <= List.length schemas)%nat.
Proof.
  intros H. split; [|split].
  - unfold system_with_tools, tool_desc.
    now rewrite (tool_schemas_from_all tools schemas [] H).
  - symmetry. apply (Forall2_length H).
  - rewrite <- (Forall2_length H).
    destruct (tool_index_keys_fold tools []) as (_ & _ & Hl). exact Hl.
Qed.

End DescriptionFacts.

Lemma schema_without_parameters_witness :
  @tool_schema no_repr (tool_named "random_joke") = Ok (py "- random_joke: random_joke").
Proof.
  apply (@schema_without_parameters no_repr (tool_named "random_joke") []).
  - reflexivity.
  - left. reflexivity.
Defined.

Lemma schema_lists_parameters_witness :
  @tool_schema no_repr book_tool =
    Ok (py "- book_recs: Recommend books" ++ nl ++
        py "    - topic: string (required)" ++ nl ++
        py "    - limit: any (optional)").
Proof.
  apply (@schema_lists_parameters no_repr book_tool
           [(py "type", JString "object");
            (py "properties",
             JObject [(py "topic", JObject [(py "type", JString "string")]);
                      (py "limit", JObject [(py "default", JInt 3)])]);
            (py "required", JArray [JString "topic"])]
           [(py "topic", JObject [(py "type", JString "string")]);
            (py "limit", JObject [(py "default", JInt 3)])]
           [JString "topic"]).
  - reflexivity.
  - reflexivity.
  - discriminate.
  - repeat constructor; simpl; eexists; reflexivity.
  - left. reflexivity.
Defined.

Lemma malformed_schema_fails_witness :
  exists e, @system_with_tools no_repr "You are a helper."
              [book_tool; broken_tool] = Err e.
Proof.
  apply (@malformed_schema_fails no_repr "You are a helper."
           [book_tool; broken_tool] broken_tool
           [(py "properties", JArray [JString "topic"])]).
  - simpl. auto.
  - reflexivity.
  - left. exists (JArray [JString "topic"]). split; [reflexivity|discriminate].
Defined.

Lemma system_prompt_describes_all_witness :
  @system_with_tools no_repr "You are a helper."
     [tool_named "random_joke"; tool_named "random_joke"] =
    Ok (py "You are a helper." ++ nl ++ nl ++ "Available tools:" ++ nl ++
        py "- random_joke: random_joke" ++ nl ++ py "- random_joke: random_joke").
Proof.
  apply (@system_prompt_describes_all no_repr "You are a helper."
           [tool_named "random_joke"; tool_named "random_joke"]
           [py "- random_joke: random_joke"; py "- random_joke: random_joke"]).
  repeat constructor.
Defined.

(** ** The further properties on examples *)

Lemma llm_json_raises_iff_witness :
  @llm_json python_json _ scripted [system_message] (start [] [system_message])
  = (Raise (ExternalError "connection refused"),
     after_chat (start [] [system_message]) (primary_request [system_message]) []).
Proof.
  apply (@llm_json_raises_iff python_json _ scripted [system_message]
           (start [] [system_message])).
  exists []. split; reflexivity.
Defined.

Lemma direct_decode_canonical_witness :
  let X := quoted "She said 'hi' \ bye" in
  fst (@llm_json python_json _ scripted [system_message]
         (start [Ret (final_text X)] [system_message]))
  = Ret (final_answer X).
Proof.
  cbv zeta.
  rewrite (@direct_decode_canonical _ scripted [system_message]
             (start [Ret (final_text (quoted "She said 'hi' \ bye"))]
                [system_message]) []
             (quoted "She said 'hi' \ bye") eq_refl).
  reflexivity.
Defined.

Lemma tool_call_result_appended_witness :
  let st := start [Ret joke_call] [system_message] in
  @iteration_body python_json _ scripted two_tools no_repr example_index 0 st =
    (Ret Next,
     Build_State []
       ([system_message] ++
          [message "assistant" (JString "[tool:random_joke] result of random_joke")])
       [] ([] ++ [primary_request [system_message]])
       ([] ++ [(py "random_joke", JObject [])])).
Proof.
  cbv zeta.
  apply (@tool_call_result_appended python_json _ scripted two_tools no_repr
           example_index 0%nat (start [Ret joke_call] [system_message])
           (after_chat (start [Ret joke_call] [system_message])
              (primary_request [system_message]) [])
           [(py "action", JString "random_joke"); (py "args", JObject [])]
           "random_joke" "result of random_joke"
           {| result_content := [TextContent "result of random_joke"];
              model_dump_json := "{}" |} []).
  - vm_compute; reflexivity.
  - reflexivity.
  - vm_compute; discriminate.
  - reflexivity.
  - reflexivity.
  - reflexivity.
Defined.

Lemma tool_call_failure_recorded_witness :
  let st := start [Ret joke_call] [system_message] in
  @iteration_body python_json _ scripted twin_tools no_repr example_index 0 st =
    (Ret Next,
     Build_State []
       ([system_message] ++
          [message "assistant" (JString "[error] Tool call failed: unavailable")])
       ([] ++ [Print "[ERROR] Tool call failed: unavailable"])
       ([] ++ [primary_request [system_message]])
       ([] ++ [(py "random_joke", JObject [])])).
Proof.
  cbv zeta.
  apply (@tool_call_failure_recorded python_json _ scripted twin_tools no_repr
           example_index 0%nat (start [Ret joke_call] [system_message])
           (after_chat (start [Ret joke_call] [system_message])
              (primary_request [system_message]) [])
           [(py "action", JString "random_joke"); (py "args", JObject [])]
           "random_joke" (ExternalError "unavailable") []).
  - vm_compute; reflexivity.
  - reflexivity.
  - vm_compute; discriminate.
  - reflexivity.
  - left. reflexivity.
Defined.

Lemma non_object_decision_raises_witness :
  let st := start [Ret (py "42")] [system_message] in
  for_in [0; 1]%nat
    (@iteration_body python_json _ scripted two_tools no_repr example_index) st =
    (Raise (AttributeError "int" "get"),
     after_chat st (primary_request [system_message]) []).
Proof.
  cbv zeta.
  apply (@non_object_decision_raises python_json _ scripted two_tools no_repr
           example_index 0%nat [1%nat] (start [Ret (py "42")] [system_message])
           (after_chat (start [Ret (py "42")] [system_message])
              (primary_request [system_message]) [])
           (JInt 42)).
  - vm_compute; reflexivity.
  - discriminate.
Defined.

Lemma unhashable_action_raises_witness :
  let st := start [Ret (quoted "{'action':['random_joke']}")] [system_message] in
  for_in [0; 1]%nat
    (@iteration_body python_json _ scripted two_tools no_repr example_index) st =
    (Raise (UnhashableType "list"),
     after_chat st (primary_request [system_message]) []).
Proof.
  cbv zeta.
  apply (@unhashable_action_raises python_json _ scripted two_tools no_repr
           example_index 0%nat [1%nat]
           (start [Ret (quoted "{'action':['random_joke']}")] [system_message])
           (after_chat
              (start [Ret (quoted "{'action':['random_joke']}")] [system_message])
              (primary_request [system_message]) [])
           [(py "action", JArray [JString "random_joke"])]
           (JArray [JString "random_joke"])).
  - vm_compute; reflexivity.
  - reflexivity.
  - left. eexists. reflexivity.
Defined.

Lemma missing_action_is_unknown_tool_witness :
  let st := start [Ret (py "{}")] [system_message] in
  @iteration_body python_json _ scripted two_tools no_repr example_index 0 st =
    (Ret Next,
     Build_State []
       ([system_message] ++ [message "assistant" (JString "(unknown tool None)")])
       ([] ++ [Print "[ERROR] Unknown tool: None"])
       ([] ++ [primary_request [system_message]]) []).
Proof.
  cbv zeta.
  apply (@missing_action_is_unknown_tool python_json _ scripted two_tools no_repr
           example_index 0%nat (start [Ret (py "{}")] [system_message])
           (after_chat (start [Ret (py "{}")] [system_message])
              (primary_request [system_message]) [])
           []).
  - vm_compute; reflexivity.
  - left. reflexivity.
Defined.

Lemma iteration_sends_whole_history_witness :
  let history_ := [system_message; message "user" (JString "hi")] in
  chat_calls
    (snd (@iteration_body python_json _ scripted two_tools no_repr example_index 0
            (start [Ret (py "{action"); Ret (py "still no JSON")] history_)))
  = [primary_request history_; repair_request "{action"].
Proof.
  cbv zeta.
  apply (@iteration_sends_whole_history python_json _ scripted two_tools no_repr
           example_index 0%nat
           (start [Ret (py "{action"); Ret (py "still no JSON")]
              [system_message; message "user" (JString "hi")])
           (Ret (py "{action")) [Ret (py "still no JSON")]).
  reflexivity.
Defined.

Lemma final_answer_stored_as_is_witness :
  (let st := start [Ret (quoted "{'action':'final','answer':42}")]
               [system_message] in
   for_in [0; 1]%nat
     (@iteration_body python_json _ scripted two_tools no_repr
        (tool_index_of [tool_named "final"])) st =
     (Ret tt,
      Build_State [] ([system_message] ++ [message "assistant" (JInt 42)])
        ([] ++ [PrintAgent (JInt 42)])
        ([] ++ [primary_request [system_message]]) [])) /\
  (let st := start [Ret (quoted "{'action':'final','answer':'\udc00'}")]
               [system_message] in
   for_in [0; 1]%nat
     (@iteration_body python_json _ scripted two_tools no_repr
        (tool_index_of [tool_named "final"])) st =
     (Raise (UnicodeEncodeError [56320%N]),
      Build_State [] [system_message] ([] ++ [PrintAgentCut])
        ([] ++ [primary_request [system_message]]) [])).
Proof.
  cbv zeta. split.
  - apply (@final_answer_stored_as_is python_json _ scripted two_tools no_repr
             (tool_index_of [tool_named "final"]) 0%nat [1%nat]
             (start [Ret (quoted "{'action':'final','answer':42}")]
                [system_message])
             (after_chat
                (start [Ret (quoted "{'action':'final','answer':42}")]
                   [system_message])
                (primary_request [system_message]) [])
             [(py "action", JString "final"); (py "answer", JInt 42)]
             (JInt 42)).
    + vm_compute; reflexivity.
    + reflexivity.
    + reflexivity.
    + reflexivity.
  - apply (@final_answer_stored_as_is python_json _ scripted two_tools no_repr
             (tool_index_of [tool_named "final"]) 0%nat [1%nat]
             (start [Ret (quoted "{'action':'final','answer':'\udc00'}")]
                [system_message])
             (after_chat
                (start [Ret (quoted "{'action':'final','answer':'\udc00'}")]
                   [system_message])
                (primary_request [system_message]) [])
             [(py "action", JString "final"); (py "answer", JString [56320%N])]
             (JString [56320%N])).
    + vm_compute; reflexivity.
    + reflexivity.
    + reflexivity.
    + reflexivity.
    + reflexivity.
Defined.

Lemma repl_stops_at_quit_witness :
  let st := start [Ret joke_call] [system_message] in
  @repl python_json _ scripted two_tools no_repr example_index
    [py "  QuIt "; py "tell me a joke"] st = (Ret tt, prompted st).
Proof.
  cbv zeta.
  apply (@repl_stops_at_quit python_json _ scripted two_tools no_repr example_index
           "  QuIt " [py "tell me a joke"]
           (start [Ret joke_call] [system_message])).
  right. right. vm_compute. reflexivity.
Defined.

Lemma tool_index_keys_witness :
  dict_keys (tool_index_of [tool_named "a"; tool_named "b"; tool_named "a"])
  = [py "a"; py "b"] /\
  NoDup (dict_keys (tool_index_of [tool_named "a"; tool_named "b"; tool_named "a"])).
Proof.
  split; [reflexivity|].
  apply (tool_index_keys [tool_named "a"; tool_named "b"; tool_named "a"]).
Defined.
